(** * daily-dots: the year-progress grid, its geometry and its three surfaces

    The repository renders one picture three times:
    - [DailyDots]   the interactive React component (components/DailyDots),
    - [OgRoute]     the dynamic image route built on [ImageResponse]
                    (the [GET] handler that fills a [dots] array),
    - [ImageRoute]  the configurable image route (the [GET] handler with a
                    [format] parameter that builds [svgElements]).

    The three files repeat the same temporal and sizing code verbatim; that
    text is embedded once ([Temporal], [Sizing]) and every surface calls it,
    while what differs between the files (what is drawn, at which size and
    where) is embedded per surface. *)

From Stdlib Require Import ZArith QArith Qminmax Qround List Bool Lia Lqa.
Import ListNotations.

Local Open Scope Z_scope.

(* ------------------------------------------------------------------ *)
(** ** JavaScript numbers *)

Module JS.

(** An integer-valued JavaScript number, or [NaN].  This is the shape of what
    [differenceInDays], [getDay] and [parseInt] return and of every loop
    counter and grid index computed from them; a double holds such integers
    exactly (up to 2^53), so [Z] loses nothing.  [parseInt] itself rounds a
    digit string above 2^53 and gives an infinity beyond the range of the
    doubles: a statement about a parsed width or height bounds it to where
    [Int] is what [parseInt] returns. *)
Inductive int : Type :=
| Int (z : Z)
| INaN.

(** A JavaScript number in general: an exact rational (rounding is not
    modelled and zero carries no sign), an infinity ([Inf true] is
    [-Infinity]) or [NaN].  What is proved of a finite number is thus proved
    of exact arithmetic; the code's doubles follow it up to rounding, which
    an equality or a bound met with equality need not survive and a strict
    bound with room to spare does. *)
Inductive num : Type :=
| Fin (q : Q)
| Inf (negative : bool)
| NaN.

Definition of_int (i : int) : num :=
  match i with
  | Int z => Fin (inject_Z z)
  | INaN => NaN
  end.

(** *** Integer operations *)

Definition lift2 (f : Z -> Z -> Z) (a b : int) : int :=
  match a, b with
  | Int x, Int y => Int (f x y)
  | _, _ => INaN
  end.

Definition iadd : int -> int -> int := lift2 Z.add.
Definition isub : int -> int -> int := lift2 Z.sub.

(** [a < b], [a >= b], [a === b]: every comparison with [NaN] is false. *)
Definition ilt (a b : int) : bool :=
  match a, b with
  | Int x, Int y => x <? y
  | _, _ => false
  end.

Definition ige (a b : int) : bool :=
  match a, b with
  | Int x, Int y => y <=? x
  | _, _ => false
  end.

Definition ieq (a b : int) : bool :=
  match a, b with
  | Int x, Int y => x =? y
  | _, _ => false
  end.

(** [Math.floor(a / d)], [a % d] and [Math.ceil(a / d)] for a literal
    divisor [d > 0] (the code only divides grid offsets by 14).  [%] takes
    the sign of the dividend, which is [Z.rem]. *)
Definition ifloor_div (a : int) (d : Z) : int :=
  match a with
  | Int x => Int (x / d)
  | INaN => INaN
  end.

Definition irem (a : int) (d : Z) : int :=
  match a with
  | Int x => Int (Z.rem x d)
  | INaN => INaN
  end.

Definition iceil_div (a : int) (d : Z) : int :=
  match a with
  | Int x => Int (- ((- x) / d))
  | INaN => INaN
  end.

(** The values [i] takes in [for (let i = 0; i < n; i++)]: none when [n] is
    [NaN] or not positive. *)
Definition upto (n : int) : list Z :=
  match n with
  | Int z => map Z.of_nat (seq 0 (Z.to_nat z))
  | INaN => []
  end.

(** *** Number operations *)

Definition nneg (a : num) : num :=
  match a with
  | Fin x => Fin (- x)
  | Inf s => Inf (negb s)
  | NaN => NaN
  end.

Definition nadd (a b : num) : num :=
  match a, b with
  | NaN, _ | _, NaN => NaN
  | Fin x, Fin y => Fin (x + y)
  | Inf s, Fin _ | Fin _, Inf s => Inf s
  | Inf s, Inf t => if Bool.eqb s t then Inf s else NaN
  end.

Definition nsub (a b : num) : num := nadd a (nneg b).

Definition nmul (a b : num) : num :=
  match a, b with
  | NaN, _ | _, NaN => NaN
  | Fin x, Fin y => Fin (x * y)
  | Inf s, Fin x | Fin x, Inf s =>
      match x ?= 0 with
      | Eq => NaN
      | Gt => Inf s
      | Lt => Inf (negb s)
      end
  | Inf s, Inf t => Inf (xorb s t)
  end%Q.

Definition ndiv (a b : num) : num :=
  match a, b with
  | NaN, _ | _, NaN => NaN
  | Fin x, Fin y =>
      match y ?= 0 with
      | Eq => match x ?= 0 with
              | Eq => NaN
              | Gt => Inf false
              | Lt => Inf true
              end
      | _ => Fin (x / y)
      end
  | Fin _, Inf _ => Fin 0
  | Inf s, Fin y =>
      match y ?= 0 with
      | Lt => Inf (negb s)
      | _ => Inf s
      end
  | Inf _, Inf _ => NaN
  end%Q.

(** [Math.min(a, b)]: [NaN] as soon as one argument is. *)
Definition nmin (a b : num) : num :=
  match a, b with
  | NaN, _ | _, NaN => NaN
  | Fin x, Fin y => Fin (Qmin x y)
  | Inf true, _ | _, Inf true => Inf true
  | Inf false, c | c, Inf false => c
  end.

(** Two numbers denote the same value. *)
Definition num_eq (a b : num) : Prop :=
  match a, b with
  | Fin x, Fin y => (x == y)%Q
  | Inf s, Inf t => s = t
  | NaN, NaN => True
  | _, _ => False
  end.

(** What calling a function ends in: it returns, or an exception reaches the
    caller. *)
Inductive completion (A E : Type) : Type :=
| Returned (a : A)
| Thrown (e : E).
Arguments Returned {A E} a.
Arguments Thrown {A E} e.

End JS.

Import JS.

Declare Scope js_scope.
Delimit Scope js_scope with js.
Infix "+" := nadd : js_scope.
Infix "-" := nsub : js_scope.
Infix "*" := nmul : js_scope.
Infix "/" := ndiv : js_scope.
Infix "=~" := num_eq (at level 70, no associativity).

(** Decimal literals of the source. *)
Definition dec (n : Z) (d : positive) : num := Fin (n # d).

(* ------------------------------------------------------------------ *)
(** ** Sizing

    [cardWidth] ... [dotSize], the same text in the component (lines 39-59),
    in the dynamic route (37-52) and in the configurable route (30-46). *)

Module Sizing.

Record t : Type := mk {
  cardWidth : num;
  cardHeight : num;
  padding : num;
  availableWidth : num;
  availableHeight : num;
  uniformGap : num;
  dotSize : num
}.

Definition cols : num := Fin 15.

Definition resolve (width height totalRows : num) : t :=
  let cardWidth := (width * dec 75 100)%js in
  let cardHeight := (height * dec 48 100)%js in
  let padding := (nmin cardWidth cardHeight * dec 4 100)%js in
  let availableWidth := (cardWidth - padding * Fin 2)%js in
  let availableHeight := (cardHeight - padding * Fin 2)%js in
  let uniformGap :=
    nmin (availableWidth / (cols * Fin 4))%js
         (availableHeight / (totalRows * Fin 4))%js in
  let dotSize := (uniformGap * dec 15 10)%js in
  mk cardWidth cardHeight padding availableWidth availableHeight
     uniformGap dotSize.

(** The grid cell size, computed by the two image routes only (the component
    leaves cell placement to CSS grid). *)
Definition cellWidth (g : t) : num := (availableWidth g / Fin 15)%js.
Definition cellHeight (g : t) (totalRows : num) : num :=
  (availableHeight g / totalRows)%js.

End Sizing.

(* ------------------------------------------------------------------ *)
(** ** Dates and the date-fns functions the surfaces import *)

Module DateFns.

(** A [Date] as its local-time getters show it ([getFullYear], [getMonth]
    with January = 0, [getDate], [getHours], ...), or the [Invalid Date] that
    [new Date(dateStr)] gives for a string it cannot parse. *)
Record LocalTime : Type := mkTime {
  year : Z;
  month : Z;
  date : Z;
  hours : Z;
  minutes : Z;
  seconds : Z;
  milliseconds : Z
}.

Inductive Date : Type :=
| At (t : LocalTime)
| Invalid.

Definition isValid (d : Date) : bool :=
  match d with
  | At _ => true
  | Invalid => false
  end.

Definition isLeapYear (y : Z) : bool :=
  ((y mod 4 =? 0) && negb (y mod 100 =? 0)) || (y mod 400 =? 0).

Definition daysInMonth (y m : Z) : Z :=
  match m with
  | 1 => if isLeapYear y then 29 else 28
  | 3 | 5 | 8 | 10 => 30
  | _ => 31
  end.

(** The fields of a [Date] object always name a real instant of the
    calendar. *)
Definition wf (t : LocalTime) : Prop :=
  0 <= month t <= 11 /\
  1 <= date t <= daysInMonth (year t) (month t) /\
  0 <= hours t <= 23 /\
  0 <= minutes t <= 59 /\
  0 <= seconds t <= 59 /\
  0 <= milliseconds t <= 999.

Definition wf_date (d : Date) : Prop :=
  match d with
  | At t => wf t
  | Invalid => False
  end.

(** Days of the year before the first of month [m]. *)
Definition daysBeforeMonth (y m : Z) : Z :=
  let feb := if isLeapYear y then 29 else 28 in
  match m with
  | 0 => 0
  | 1 => 31
  | 2 => 31 + feb
  | 3 => 62 + feb
  | 4 => 92 + feb
  | 5 => 123 + feb
  | 6 => 153 + feb
  | 7 => 184 + feb
  | 8 => 215 + feb
  | 9 => 245 + feb
  | 10 => 276 + feb
  | _ => 306 + feb
  end.

Definition leapsThrough (y : Z) : Z := y / 4 - y / 100 + y / 400.

(** Days from 1 January 1970 to 1 January of year [y]. *)
Definition daysBeforeYear (y : Z) : Z :=
  365 * (y - 1970) + (leapsThrough (y - 1) - leapsThrough 1969).

(** The calendar day of [t], counted from 1 January 1970. *)
Definition dayNumber (t : LocalTime) : Z :=
  daysBeforeYear (year t) + daysBeforeMonth (year t) (month t) + (date t - 1).

(** Modelled from the spec: date-fns is a dependency and not under src/.
    [startOfYear] is "the first instant of [now]'s year": 1 January,
    00:00:00.000 local time; an invalid date stays invalid. *)
Definition startOfYear (d : Date) : Date :=
  match d with
  | At t => At (mkTime (year t) 0 1 0 0 0 0)
  | Invalid => Invalid
  end.

(** Modelled from the spec: [endOfYear] is "the last instant of that year":
    31 December, 23:59:59.999 local time. *)
Definition endOfYear (d : Date) : Date :=
  match d with
  | At t => At (mkTime (year t) 11 31 23 59 59 999)
  | Invalid => Invalid
  end.

(** Modelled from the spec: [getDay] numbers weekdays "Sunday->0 ...
    Saturday->6"; 1 January 1970 was a Thursday.  [NaN] on an invalid
    date. *)
Definition getDay (d : Date) : int :=
  match d with
  | At t => Int ((dayNumber t + 4) mod 7)
  | Invalid => INaN
  end.

(** JavaScript's [a || b] on numbers. *)
Definition orElse (a b : Z) : Z := if a =? 0 then b else a.

(** date-fns's [compareLocalAsc]: the sign of the first local field in which
    the two dates differ. *)
Definition localDiff (l e : LocalTime) : Z :=
  orElse (year l - year e)
 (orElse (month l - month e)
 (orElse (date l - date e)
 (orElse (hours l - hours e)
 (orElse (minutes l - minutes e)
 (orElse (seconds l - seconds e)
         (milliseconds l - milliseconds e)))))).

Definition compareLocalAsc (l e : LocalTime) : Z :=
  let diff := localDiff l e in
  if diff <? 0 then -1 else if 0 <? diff then 1 else diff.

Definition differenceInCalendarDays (l e : LocalTime) : Z :=
  dayNumber l - dayNumber e.

(** [l] moved back by the calendar-day difference to [e]
    ([setDate(getDate() - sign * difference)]): the calendar day of [e] at
    the time of day of [l]. *)
Definition onDayOf (l e : LocalTime) : LocalTime :=
  mkTime (year e) (month e) (date e)
         (hours l) (minutes l) (seconds l) (milliseconds l).

(** Modelled from the spec: [differenceInDays] is the "whole-day difference
    ... truncating any partial day": the calendar-day difference, less one
    when the last day is not full.  [NaN] when a date is invalid. *)
Definition differenceInDays (later earlier : Date) : int :=
  match later, earlier with
  | At l, At e =>
      let sign := compareLocalAsc l e in
      let difference := Z.abs (differenceInCalendarDays l e) in
      let isLastDayNotFull :=
        if compareLocalAsc (onDayOf l e) e =? - sign then 1 else 0 in
      Int (sign * (difference - isLastDayNotFull))
  | _, _ => INaN
  end.

End DateFns.

Import DateFns.

(* ------------------------------------------------------------------ *)
(** ** Temporal values

    [startYear] ... [firstDayOfWeek] and [totalRows]: the same text in the
    component (lines 16-36, 44), the dynamic route (25-34, 41) and the
    configurable route (18-27, 35). *)

Module Temporal.

Definition startYear (now : Date) : Date := startOfYear now.
Definition endYear (now : Date) : Date := endOfYear now.

Definition totalDays (now : Date) : int :=
  iadd (differenceInDays (endYear now) (startYear now)) (Int 1).

(** "Days passed (not including today)". *)
Definition daysPassed (now : Date) : int :=
  differenceInDays now (startYear now).

(** [day === 0 ? 6 : day - 1]. *)
Definition mondayBased (day : int) : int :=
  if ieq day (Int 0) then Int 6 else isub day (Int 1).

Definition firstDayOfWeek (now : Date) : int :=
  mondayBased (getDay (startYear now)).

(** [Math.ceil((totalDays + firstDayOfWeek) / 14)]. *)
Definition totalRows (totalDays firstDayOfWeek : int) : int :=
  iceil_div (iadd totalDays firstDayOfWeek) 14.

End Temporal.

(* ------------------------------------------------------------------ *)
(** ** Grid position and classification of a day

    [totalOffset], [row], [positionInRow], [col]: the same text in the dynamic
    route (lines 77-80) and in the configurable route (66-69); [isPassed] and
    [isToday]: the same text in all three files. *)

Module Grid.

Definition totalOffset (firstDayOfWeek : int) (dayOffset : Z) : int :=
  iadd firstDayOfWeek (Int dayOffset).

Definition row (totalOffset : int) : int := ifloor_div totalOffset 14.

Definition positionInRow (totalOffset : int) : int := irem totalOffset 14.

(** [positionInRow < 7 ? positionInRow : positionInRow + 1]. *)
Definition col (positionInRow : int) : int :=
  if ilt positionInRow (Int 7) then positionInRow
  else iadd positionInRow (Int 1).

Definition needsGapBefore (positionInRow : int) : bool :=
  ieq positionInRow (Int 7).

Definition isPassed (dayOffset : Z) (daysPassed : int) : bool :=
  ilt (Int dayOffset) daysPassed.

Definition isToday (dayOffset : Z) (daysPassed : int) : bool :=
  ieq (Int dayOffset) daysPassed.

End Grid.

(** The label under the card, the same in all three files:
    [totalDays - daysPassed - 1] days and [daysPassed / totalDays * 100]
    percent (before [toFixed(1)]). *)
Record Label : Type := mkLabel {
  daysLeft : int;
  percentage : num
}.

Definition label (totalDays daysPassed : int) : Label :=
  mkLabel (isub (isub totalDays daysPassed) (Int 1))
          (of_int daysPassed / of_int totalDays * Fin 100)%js.

(** The failures the specification names; no surface raises either. *)
Inductive error : Type :=
| InvalidDateInput
| InvalidCanvasSize.

(* ------------------------------------------------------------------ *)
(** ** The interactive component *)

Module DailyDots.

(** lodash's [range(n)]: [0 .. n-1], counting down for a negative [n], empty
    for [NaN]. *)
Definition range (n : int) : list Z :=
  match n with
  | Int z =>
      if z <? 0 then map (fun i => - Z.of_nat i) (seq 0 (Z.to_nat (- z)))
      else map Z.of_nat (seq 0 (Z.to_nat z))
  | INaN => []
  end.

(** The children of the grid container, fragments flattened. *)
Inductive Node : Type :=
| EmptySlot (size : num)
| GapFirst
| GapSpacer
| CrossIcon (size : num)
| TodayIcon (size : num)
| DotIcon (size : num).

Definition icon (dotSize : num) (isPassed isToday : bool) : Node :=
  if isPassed then CrossIcon (dotSize * dec 13 10)%js
  else if isToday then TodayIcon (dotSize * dec 18 10)%js
  else DotIcon dotSize.

Definition day (firstDayOfWeek daysPassed : int) (dotSize : num)
    (dayOffset : Z) : list Node :=
  let totalOffset := Grid.totalOffset firstDayOfWeek dayOffset in
  let positionInRow := Grid.positionInRow totalOffset in
  let needsGapBefore := Grid.needsGapBefore positionInRow in
  let isPassed := Grid.isPassed dayOffset daysPassed in
  let isToday := Grid.isToday dayOffset daysPassed in
  (if needsGapBefore then [GapSpacer] else [])
  ++ [icon dotSize isPassed isToday].

Definition children (totalDays daysPassed firstDayOfWeek : int)
    (dotSize : num) : list Node :=
  map (fun _ => EmptySlot dotSize) (range firstDayOfWeek)
  ++ (if ige firstDayOfWeek (Int 7) then [GapFirst] else [])
  ++ flat_map (day firstDayOfWeek daysPassed dotSize) (range totalDays).

Record View : Type := mkView {
  sizing : Sizing.t;
  top : num;
  borderRadius : num;
  grid : list Node;
  caption : Label
}.

Definition render (now : Date) (width height : num) : View :=
  let totalDays := Temporal.totalDays now in
  let daysPassed := Temporal.daysPassed now in
  let firstDayOfWeek := Temporal.firstDayOfWeek now in
  let totalRows := Temporal.totalRows totalDays firstDayOfWeek in
  let g := Sizing.resolve width height (of_int totalRows) in
  mkView g (height * dec 35 100)%js
         (nmin (Sizing.cardWidth g) (Sizing.cardHeight g) * dec 4 100)%js
         (children totalDays daysPassed firstDayOfWeek (Sizing.dotSize g))
         (label totalDays daysPassed).

End DailyDots.

(* ------------------------------------------------------------------ *)
(** ** The dynamic image route *)

Module OgRoute.

Inductive DotType : Type := empty | cross | today | dot | gap.

Record Dot : Type := mkDot {
  type : DotType;
  row : int;
  col : int
}.

(** "Add empty slots for days before first day of year". *)
Definition emptySlot (i : Z) : Dot :=
  let totalOffset := Int i in
  let row := Grid.row totalOffset in
  let positionInRow := Grid.positionInRow totalOffset in
  mkDot empty row (Grid.col positionInRow).

(** "Add gap spacer if first week starts after position 7". *)
Definition leadingGap (firstDayOfWeek : int) : list Dot :=
  if ige firstDayOfWeek (Int 7) then [mkDot gap (Int 0) (Int 7)] else [].

(** One turn of the "Add all days" loop. *)
Definition day (firstDayOfWeek daysPassed : int) (dayOffset : Z) : list Dot :=
  let totalOffset := Grid.totalOffset firstDayOfWeek dayOffset in
  let row := Grid.row totalOffset in
  let positionInRow := Grid.positionInRow totalOffset in
  let col := Grid.col positionInRow in
  let needsGapBefore := Grid.needsGapBefore positionInRow in
  let isPassed := Grid.isPassed dayOffset daysPassed in
  let isToday := Grid.isToday dayOffset daysPassed in
  (if needsGapBefore then [mkDot gap row (Int 7)] else [])
  ++ [mkDot (if isPassed then cross else if isToday then today else dot)
            row col].

Definition dots (totalDays daysPassed firstDayOfWeek : int) : list Dot :=
  map emptySlot (upto firstDayOfWeek)
  ++ leadingGap firstDayOfWeek
  ++ flat_map (day firstDayOfWeek daysPassed) (upto totalDays).

(** An absolutely positioned [<svg>] of the grid container. *)
Record Svg : Type := mkSvg {
  kind : DotType;
  size : num;
  left : num;
  top : num
}.

(** The body of [dots.map]: [null] for an empty slot or a gap. *)
Definition draw (dotSize cellWidth cellHeight : num) (d : Dot) : option Svg :=
  let x := (of_int (col d) * cellWidth + cellWidth / Fin 2)%js in
  let y := (of_int (row d) * cellHeight + cellHeight / Fin 2)%js in
  match type d with
  | empty | gap => None
  | cross =>
      let size := (dotSize * Fin 1)%js in
      Some (mkSvg cross size (x - size / Fin 2)%js (y - size / Fin 2)%js)
  | today =>
      let size := (dotSize * dec 18 10)%js in
      Some (mkSvg today size (x - size / Fin 2)%js (y - size / Fin 2)%js)
  | dot =>
      Some (mkSvg dot dotSize (x - dotSize / Fin 2)%js
                  (y - dotSize / Fin 2)%js)
  end.

Record Response : Type := mkResponse {
  sizing : Sizing.t;
  cellWidth : num;
  cellHeight : num;
  cardTop : num;
  borderRadius : num;
  cells : list Dot;
  drawn : list (option Svg);
  caption : Label
}.

Definition GET (width height : int) (now : Date) : completion Response error :=
  let totalDays := Temporal.totalDays now in
  let daysPassed := Temporal.daysPassed now in
  let firstDayOfWeek := Temporal.firstDayOfWeek now in
  let totalRows := Temporal.totalRows totalDays firstDayOfWeek in
  let g := Sizing.resolve (of_int width) (of_int height) (of_int totalRows) in
  let dots := dots totalDays daysPassed firstDayOfWeek in
  let cellWidth := Sizing.cellWidth g in
  let cellHeight := Sizing.cellHeight g (of_int totalRows) in
  Returned
    (mkResponse g cellWidth cellHeight
       (of_int height * dec 35 100)%js
       (nmin (Sizing.cardWidth g) (Sizing.cardHeight g) * dec 4 100)%js
       dots
       (map (draw (Sizing.dotSize g) cellWidth cellHeight) dots)
       (label totalDays daysPassed)).

End OgRoute.

(* ------------------------------------------------------------------ *)
(** ** The configurable image route *)

Module ImageRoute.

(** The SVG elements pushed to [svgElements]. *)
Inductive Element : Type :=
| Line (x1 y1 x2 y2 strokeWidth : num)
| TodayCircle (cx cy r : num)
| FutureCircle (cx cy r : num).

(** What a day draws at its centre [(x, y)]: the [if (isPassed) ... else if
    (isToday) ... else ...] of the loop body. *)
Definition shapes (isPassed isToday : bool) (x y dotSize : num)
    : list Element :=
  if isPassed then
    let size := dotSize in
    let offset := (size * dec 4 10)%js in
    [Line (x - offset) (y - offset) (x + offset) (y + offset)
          (size * dec 2 10);
     Line (x + offset) (y - offset) (x - offset) (y + offset)
          (size * dec 2 10)]%js
  else if isToday then
    let radius := (dotSize * dec 9 10)%js in
    [TodayCircle x y radius]
  else
    let radius := (dotSize * dec 4 10)%js in
    [FutureCircle x y radius].

(** One turn of the "Add all days" loop. *)
Definition day (firstDayOfWeek daysPassed : int)
    (cardX cardY padding cellWidth cellHeight dotSize : num)
    (dayOffset : Z) : list Element :=
  let totalOffset := Grid.totalOffset firstDayOfWeek dayOffset in
  let row := Grid.row totalOffset in
  let positionInRow := Grid.positionInRow totalOffset in
  let col := Grid.col positionInRow in
  let isPassed := Grid.isPassed dayOffset daysPassed in
  let isToday := Grid.isToday dayOffset daysPassed in
  let x := (cardX + padding + of_int col * cellWidth + cellWidth / Fin 2)%js in
  let y := (cardY + padding + of_int row * cellHeight + cellHeight / Fin 2)%js in
  shapes isPassed isToday x y dotSize.

(** What both output formats are made of: the SVG text and the PNG are built
    from the same card rectangle, [svgElements] and label. *)
Record Response : Type := mkResponse {
  sizing : Sizing.t;
  cellWidth : num;
  cellHeight : num;
  cardX : num;
  cardY : num;
  borderRadius : num;
  svgElements : list Element;
  caption : Label
}.

Definition GET (width height : int) (now : Date) : completion Response error :=
  let totalDays := Temporal.totalDays now in
  let daysPassed := Temporal.daysPassed now in
  let firstDayOfWeek := Temporal.firstDayOfWeek now in
  let totalRows := Temporal.totalRows totalDays firstDayOfWeek in
  let g := Sizing.resolve (of_int width) (of_int height) (of_int totalRows) in
  let borderRadius :=
    (nmin (Sizing.cardWidth g) (Sizing.cardHeight g) * dec 4 100)%js in
  let cellWidth := Sizing.cellWidth g in
  let cellHeight := Sizing.cellHeight g (of_int totalRows) in
  let cardX := ((of_int width - Sizing.cardWidth g) / Fin 2)%js in
  let cardY := (of_int height * dec 35 100)%js in
  Returned
    (mkResponse g cellWidth cellHeight cardX cardY borderRadius
       (flat_map
          (day firstDayOfWeek daysPassed cardX cardY (Sizing.padding g)
               cellWidth cellHeight (Sizing.dotSize g))
          (upto totalDays))
       (label totalDays daysPassed)).

End ImageRoute.

(* ------------------------------------------------------------------ *)
(** ** The geometry as the specification words it

    Section 4.3 of the specification, over exact rationals.  These are the
    reference values the code's [Sizing.resolve] is compared with. *)

Module SpecGeometry.
Local Open Scope Q_scope.

Definition cardW (canvasW : Q) : Q := (75 # 100) * canvasW.
Definition cardH (canvasH : Q) : Q := (48 # 100) * canvasH.
Definition padding (canvasW canvasH : Q) : Q :=
  (4 # 100) * Qmin (cardW canvasW) (cardH canvasH).
Definition availableW (canvasW canvasH : Q) : Q :=
  cardW canvasW - 2 * padding canvasW canvasH.
Definition availableH (canvasW canvasH : Q) : Q :=
  cardH canvasH - 2 * padding canvasW canvasH.
Definition gap (canvasW canvasH : Q) (rows : Z) : Q :=
  Qmin (availableW canvasW canvasH / (15 * 4))
       (availableH canvasW canvasH / (inject_Z rows * 4)).
Definition dotSize (canvasW canvasH : Q) (rows : Z) : Q :=
  (15 # 10) * gap canvasW canvasH rows.
Definition cellW (canvasW canvasH : Q) : Q := availableW canvasW canvasH / 15.
Definition cellH (canvasW canvasH : Q) (rows : Z) : Q :=
  availableH canvasW canvasH / inject_Z rows.

End SpecGeometry.

(* ------------------------------------------------------------------ *)
(** ** Reference dates used in the examples *)

(** Wednesday 1 January 2025, midnight and noon; the last second of 2025;
    a morning in leap year 2024. *)
Definition jan1_2025 : Date := At (mkTime 2025 0 1 0 0 0 0).
Definition noon_jan1_2025 : Date := At (mkTime 2025 0 1 12 0 0 0).
Definition dec31_2025 : Date := At (mkTime 2025 11 31 23 59 59 0).
Definition jun1_2024 : Date := At (mkTime 2024 5 1 9 30 0 0).

(* ------------------------------------------------------------------ *)
(** ** The classification as the specification words it *)

Inductive DotKind : Type := Past | Today | Future.

(** Section 3: "Past if dayIndex < ElapsedDays, Today if dayIndex ==
    ElapsedDays, else Future". *)
Definition classify (dayIndex elapsedDays : Z) : DotKind :=
  if dayIndex <? elapsedDays then Past
  else if dayIndex =? elapsedDays then Today
  else Future.

(** The grid column of a position in the 14-day row, section 3. *)
Definition specCol (posInRow : Z) : Z :=
  if posInRow <? 7 then posInRow else posInRow + 1.

(** What each surface draws for a kind of day. *)
Definition dotType (k : DotKind) : OgRoute.DotType :=
  match k with
  | Past => OgRoute.cross
  | Today => OgRoute.today
  | Future => OgRoute.dot
  end.

(** The cells of the dynamic route that stand for a day. *)
Definition isDay (d : OgRoute.Dot) : bool :=
  match OgRoute.type d with
  | OgRoute.empty | OgRoute.gap => false
  | _ => true
  end.

Definition isTodayDot (d : OgRoute.Dot) : bool :=
  match OgRoute.type d with
  | OgRoute.today => true
  | _ => false
  end.

Definition isTodayIcon (n : DailyDots.Node) : bool :=
  match n with
  | DailyDots.TodayIcon _ => true
  | _ => false
  end.

Definition isTodayCircle (e : ImageRoute.Element) : bool :=
  match e with
  | ImageRoute.TodayCircle _ _ _ => true
  | _ => false
  end.

(** The cell the dynamic route pushes for a day, after the gap spacer if
    there is one. *)
Definition dayCell (firstDayOfWeek daysPassed : int) (dayOffset : Z)
    : OgRoute.Dot :=
  last (OgRoute.day firstDayOfWeek daysPassed dayOffset)
       (OgRoute.mkDot OgRoute.empty INaN INaN).

(** The centre the configurable route gives to the cell at [(row, col)]. *)
Definition centreX (cardX padding cellWidth : num) (col : Z) : num :=
  (cardX + padding + Fin (inject_Z col) * cellWidth + cellWidth / Fin 2)%js.
Definition centreY (cardY padding cellHeight : num) (row : Z) : num :=
  (cardY + padding + Fin (inject_Z row) * cellHeight + cellHeight / Fin 2)%js.

(** The kind of day a drawn element stands for. *)
Definition nodeKind (n : DailyDots.Node) : option DotKind :=
  match n with
  | DailyDots.CrossIcon _ => Some Past
  | DailyDots.TodayIcon _ => Some Today
  | DailyDots.DotIcon _ => Some Future
  | _ => None
  end.

Definition elementKind (e : ImageRoute.Element) : DotKind :=
  match e with
  | ImageRoute.Line _ _ _ _ _ => Past
  | ImageRoute.TodayCircle _ _ _ => Today
  | ImageRoute.FutureCircle _ _ _ => Future
  end.

(* ------------------------------------------------------------------ *)
(** ** Sizes of what is drawn *)

(** The [size] a node of the component is given. *)
Definition nodeSize (n : DailyDots.Node) : option num :=
  match n with
  | DailyDots.EmptySlot s | DailyDots.CrossIcon s
  | DailyDots.TodayIcon s | DailyDots.DotIcon s => Some s
  | _ => None
  end.

(** The [size] the dynamic route gives the [<svg>] of a cell of type [ty]. *)
Definition svgSize (dotSize cellWidth cellHeight : num)
    (ty : OgRoute.DotType) (row col : int) : option num :=
  option_map OgRoute.size
    (OgRoute.draw dotSize cellWidth cellHeight (OgRoute.mkDot ty row col)).

(** A size is [factor] times the dot size [d]. *)
Definition drawnAt (got : option num) (factor d : Q) : Prop :=
  exists s, got = Some s /\ s =~ Fin (factor * d).

(** Every icon of the component and of the dynamic route is an [<svg
    viewBox="0 0 10 10">]: [units] of the view box are [size * units / 10]
    pixels.  The cross runs from 1 to 9 (4 units either side of the centre)
    with stroke 2, today's circle has radius 5, a future circle radius 4. *)
Definition viewBox (size units : Q) : Q := (size * units / 10)%Q.

(* ------------------------------------------------------------------ *)
(** ** The cells read as the children of a 15-column grid *)

(** The cell is where the [i]-th child of a grid of 15 columns flows to. *)
Definition atFlow (i : Z) (c : OgRoute.Dot) : Prop :=
  OgRoute.row c = Int (i / 15) /\ OgRoute.col c = Int (i mod 15).

(** Every cell of [l] is where it flows to, the first one being child
    [from]. *)
Fixpoint flows (from : Z) (l : list OgRoute.Dot) : Prop :=
  match l with
  | [] => True
  | c :: rest => atFlow from c /\ flows (from + 1) rest
  end.

(** The child index at which the loop turn of structural offset [k] starts
    pushing: 15 children per row of 14 days, the gap spacer being the
    eighth. *)
Definition flowStart (k : Z) : Z :=
  15 * (k / 14) + (if k mod 14 <=? 7 then k mod 14 else k mod 14 + 1).

(** The cell type a child of the component's grid stands for. *)
Definition nodeType (n : DailyDots.Node) : OgRoute.DotType :=
  match n with
  | DailyDots.EmptySlot _ => OgRoute.empty
  | DailyDots.GapFirst | DailyDots.GapSpacer => OgRoute.gap
  | DailyDots.CrossIcon _ => OgRoute.cross
  | DailyDots.TodayIcon _ => OgRoute.today
  | DailyDots.DotIcon _ => OgRoute.dot
  end.

(** [dots.map] returned an element, not [null]. *)
Definition isDrawn (s : option OgRoute.Svg) : bool :=
  match s with
  | Some _ => true
  | None => false
  end.

(** Order on finite numbers. *)
Definition fin_lt (a b : num) : Prop :=
  match a, b with
  | Fin x, Fin y => (x < y)%Q
  | _, _ => False
  end.

Definition fin_le (a b : num) : Prop :=
  match a, b with
  | Fin x, Fin y => (x <= y)%Q
  | _, _ => False
  end.

(** "Label position" of the configurable route (lines 108-110). *)
Module ImageRouteLabel.


Definition fontSize (width height : num) : num :=
  (nmin width height * dec 25 1000)%js.


End ImageRouteLabel.

(** The SVG element [e], stroke and round line caps included, lies in the
    box from [(left, top)] to [(right, bottom)]. *)
Definition within (left top right bottom : num) (e : ImageRoute.Element)
    : Prop :=
  let inX (x h : num) := fin_le left (x - h)%js /\ fin_le (x + h)%js right in
  let inY (y h : num) := fin_le top (y - h)%js /\ fin_le (y + h)%js bottom in
  match e with
  | ImageRoute.Line x1 y1 x2 y2 strokeWidth =>
      let h := (strokeWidth / Fin 2)%js in
      inX x1 h /\ inX x2 h /\ inY y1 h /\ inY y2 h
  | ImageRoute.TodayCircle cx cy r | ImageRoute.FutureCircle cx cy r =>
      inX cx r /\ inY cy r
  end.

(* ------------------------------------------------------------------ *)
(** ** Numbers: finite arguments give finite results *)

Lemma num_eq_Fin (x y : Q) : (x == y)%Q -> Fin x =~ Fin y.
Proof. intro H; exact H. Qed.

Lemma ndiv_Fin (x y : Q) : ~ (y == 0)%Q -> ndiv (Fin x) (Fin y) = Fin (x / y).
Proof.
  intro Hy. unfold ndiv.
  destruct (y ?= 0)%Q eqn:E; try reflexivity.
  apply Qeq_alt in E. contradiction.
Qed.

Lemma Qmin_scale (k a b : Q) :
  (0 <= k)%Q -> (Qmin (k * a) (k * b) == k * Qmin a b)%Q.
Proof.
  intro Hk.
  destruct (Q.min_spec a b) as [[Hlt Hm] | [Hle Hm]]; rewrite Hm.
  - apply Q.min_l. nra.
  - apply Q.min_r. nra.
Qed.

Lemma rows_nonzero (rows : Z) : 1 <= rows -> ~ (inject_Z rows == 0)%Q.
Proof.
  intros H E. unfold Qeq in E. simpl in E. lia.
Qed.

Lemma rows4_nonzero (rows : Z) : 1 <= rows -> ~ (inject_Z rows * 4 == 0)%Q.
Proof.
  intros H E. unfold Qeq, Qmult in E. simpl in E. lia.
Qed.

(** [Sizing.resolve] on finite arguments, every field in closed form. *)
Lemma resolve_Fin (W H : Q) (rows : Z) :
  1 <= rows ->
  Sizing.resolve (Fin W) (Fin H) (Fin (inject_Z rows)) =
  (let cardWidth := W * (75 # 100) in
   let cardHeight := H * (48 # 100) in
   let padding := Qmin cardWidth cardHeight * (4 # 100) in
   let availableWidth := cardWidth + - (padding * 2) in
   let availableHeight := cardHeight + - (padding * 2) in
   let uniformGap := Qmin (availableWidth / (15 * 4))
                          (availableHeight / (inject_Z rows * 4)) in
   Sizing.mk (Fin cardWidth) (Fin cardHeight) (Fin padding)
             (Fin availableWidth) (Fin availableHeight) (Fin uniformGap)
             (Fin (uniformGap * (15 # 10))))%Q.
Proof.
  intro Hr. unfold Sizing.resolve, Sizing.cols, dec. cbn [nmul nmin nsub nadd nneg].
  rewrite (ndiv_Fin _ (inject_Z rows * 4)) by (apply rows4_nonzero; exact Hr).
  rewrite (ndiv_Fin _ (15 * 4)) by (intro E; discriminate E).
  reflexivity.
Qed.

Ltac spec_form W H :=
  unfold SpecGeometry.cellW, SpecGeometry.cellH, SpecGeometry.dotSize,
    SpecGeometry.gap, SpecGeometry.availableW, SpecGeometry.availableH,
    SpecGeometry.padding, SpecGeometry.cardW, SpecGeometry.cardH;
  try setoid_replace (W * (75 # 100))%Q with ((75 # 100) * W)%Q by ring;
  try setoid_replace (H * (48 # 100))%Q with ((48 # 100) * H)%Q by ring;
  try (set (m := Qmin ((75 # 100) * W) ((48 # 100) * H));
       try setoid_replace ((75 # 100) * W + - (m * (4 # 100) * 2))%Q
         with ((75 # 100) * W - 2 * ((4 # 100) * m))%Q by ring;
       try setoid_replace ((48 # 100) * H + - (m * (4 # 100) * 2))%Q
         with ((48 # 100) * H - 2 * ((4 # 100) * m))%Q by ring).

(** The code's sizing on a finite canvas is the specification's, field by
    field; the sign of the canvas size plays no part. *)
Lemma resolve_spec (W H : Q) (rows : Z) :
  1 <= rows ->
  let g := Sizing.resolve (Fin W) (Fin H) (Fin (inject_Z rows)) in
  Sizing.cardWidth g =~ Fin (SpecGeometry.cardW W) /\
  Sizing.cardHeight g =~ Fin (SpecGeometry.cardH H) /\
  Sizing.padding g =~ Fin (SpecGeometry.padding W H) /\
  Sizing.availableWidth g =~ Fin (SpecGeometry.availableW W H) /\
  Sizing.availableHeight g =~ Fin (SpecGeometry.availableH W H) /\
  Sizing.uniformGap g =~ Fin (SpecGeometry.gap W H rows) /\
  Sizing.dotSize g =~ Fin (SpecGeometry.dotSize W H rows) /\
  Sizing.cellWidth g =~ Fin (SpecGeometry.cellW W H) /\
  Sizing.cellHeight g (Fin (inject_Z rows)) =~ Fin (SpecGeometry.cellH W H rows).
Proof.
  intros Hr g. subst g. rewrite resolve_Fin by exact Hr.
  unfold Sizing.cellWidth, Sizing.cellHeight. cbv zeta.
  cbn [Sizing.cardWidth Sizing.cardHeight Sizing.padding Sizing.availableWidth
       Sizing.availableHeight Sizing.uniformGap Sizing.dotSize].
  rewrite (ndiv_Fin _ (inject_Z rows)) by (apply rows_nonzero; exact Hr).
  rewrite (ndiv_Fin _ 15) by (intro E; discriminate E).
  cbn [num_eq].
  repeat split; spec_form W H;
    first [reflexivity | ring | apply Qmult_comm].
Qed.

Lemma num_eq_trans (a b c : num) : a =~ b -> b =~ c -> a =~ c.
Proof.
  destruct a, b, c; cbn [num_eq]; try tauto;
    intros E1 E2; rewrite E1; exact E2.
Qed.

Lemma num_eq_sym (a b : num) : a =~ b -> b =~ a.
Proof.
  destruct a, b; cbn [num_eq]; try tauto; intro E; symmetry; exact E.
Qed.

Lemma nmul_Fin_eq (k x : Q) (a : num) :
  a =~ Fin x -> (Fin k * a)%js =~ Fin (k * x).
Proof.
  destruct a; cbn [num_eq nmul]; try tauto. intro E. rewrite E. reflexivity.
Qed.

Module SpecDoubling.
Local Open Scope Q_scope.
Import SpecGeometry.

Lemma cardW2 W : cardW (2 * W) == 2 * cardW W.
Proof. unfold cardW. ring. Qed.

Lemma cardH2 H : cardH (2 * H) == 2 * cardH H.
Proof. unfold cardH. ring. Qed.

Lemma padding2 W H : padding (2 * W) (2 * H) == 2 * padding W H.
Proof.
  unfold padding. rewrite cardW2, cardH2.
  rewrite Qmin_scale by discriminate. ring.
Qed.

Lemma availableW2 W H : availableW (2 * W) (2 * H) == 2 * availableW W H.
Proof. unfold availableW. rewrite cardW2, padding2. ring. Qed.

Lemma availableH2 W H : availableH (2 * W) (2 * H) == 2 * availableH W H.
Proof. unfold availableH. rewrite cardH2, padding2. ring. Qed.

Lemma Qdiv_scale (k a c : Q) : k * a / c == k * (a / c).
Proof. unfold Qdiv. ring. Qed.

Lemma gap2 W H rows : gap (2 * W) (2 * H) rows == 2 * gap W H rows.
Proof.
  unfold gap. rewrite availableW2, availableH2, !Qdiv_scale.
  apply Qmin_scale. discriminate.
Qed.

Lemma dotSize2 W H rows : dotSize (2 * W) (2 * H) rows == 2 * dotSize W H rows.
Proof. unfold dotSize. rewrite gap2. ring. Qed.

Lemma cellW2 W H : cellW (2 * W) (2 * H) == 2 * cellW W H.
Proof. unfold cellW. rewrite availableW2. apply Qdiv_scale. Qed.

Lemma cellH2 W H rows : cellH (2 * W) (2 * H) rows == 2 * cellH W H rows.
Proof. unfold cellH. rewrite availableH2. apply Qdiv_scale. Qed.

End SpecDoubling.

Lemma doubled (a a2 : num) (x x2 : Q) :
  a =~ Fin x -> a2 =~ Fin x2 -> (x2 == 2 * x)%Q -> a2 =~ (Fin 2 * a)%js.
Proof.
  intros Ha Ha2 E.
  apply num_eq_trans with (Fin x2); [exact Ha2 |].
  apply num_eq_sym. apply num_eq_trans with (Fin (2 * x)).
  - apply nmul_Fin_eq. exact Ha.
  - apply num_eq_Fin. symmetry. exact E.
Qed.

(** C2. On a canvas of width [W > 0] and height [H > 0] with [rows >= 1] grid
    rows, the geometry the code resolves is, in exact rational arithmetic,
    cardW = 0.75 W, cardH = 0.48 H, padding = 0.04 min(cardW, cardH),
    availableW = cardW - 2 padding, availableH = cardH - 2 padding,
    gap = min(availableW / (15*4), availableH / (rows*4)),
    dotSize = 1.5 gap, cellW = availableW / 15, cellH = availableH / rows. *)
Theorem geometry_matches_spec (W H : Q) (rows : Z) :
  (0 < W)%Q -> (0 < H)%Q -> 1 <= rows ->
  let g := Sizing.resolve (Fin W) (Fin H) (Fin (inject_Z rows)) in
  Sizing.cardWidth g =~ Fin (SpecGeometry.cardW W) /\
  Sizing.cardHeight g =~ Fin (SpecGeometry.cardH H) /\
  Sizing.padding g =~ Fin (SpecGeometry.padding W H) /\
  Sizing.availableWidth g =~ Fin (SpecGeometry.availableW W H) /\
  Sizing.availableHeight g =~ Fin (SpecGeometry.availableH W H) /\
  Sizing.uniformGap g =~ Fin (SpecGeometry.gap W H rows) /\
  Sizing.dotSize g =~ Fin (SpecGeometry.dotSize W H rows) /\
  Sizing.cellWidth g =~ Fin (SpecGeometry.cellW W H) /\
  Sizing.cellHeight g (Fin (inject_Z rows)) =~ Fin (SpecGeometry.cellH W H rows).
Proof.
  intros _ _ Hr. apply resolve_spec. exact Hr.
Qed.

Lemma geometry_matches_spec_witness :
  let g := Sizing.resolve (Fin 390) (Fin 844) (Fin (inject_Z 27)) in
  Sizing.cardWidth g =~ Fin (SpecGeometry.cardW 390) /\
  Sizing.cardHeight g =~ Fin (SpecGeometry.cardH 844) /\
  Sizing.cellWidth g =~ Fin (SpecGeometry.cellW 390 844).
Proof.
  destruct (geometry_matches_spec 390 844 27)
    as (Hw & Hh & _ & _ & _ & _ & _ & Hc & _);
    [reflexivity | reflexivity | lia |].
  split; [| split].
  - exact Hw.
  - exact Hh.
  - exact Hc.
Defined.

(** C7. Doubling both canvas dimensions doubles cardW, cardH, padding, gap,
    dotSize, cellW and cellH, exactly. *)
Theorem doubling_canvas_doubles_geometry (W H : Q) (rows : Z) :
  (0 < W)%Q -> (0 < H)%Q -> 1 <= rows ->
  let r := Fin (inject_Z rows) in
  let g := Sizing.resolve (Fin W) (Fin H) r in
  let g2 := Sizing.resolve (Fin (2 * W)) (Fin (2 * H)) r in
  Sizing.cardWidth g2 =~ (Fin 2 * Sizing.cardWidth g)%js /\
  Sizing.cardHeight g2 =~ (Fin 2 * Sizing.cardHeight g)%js /\
  Sizing.padding g2 =~ (Fin 2 * Sizing.padding g)%js /\
  Sizing.uniformGap g2 =~ (Fin 2 * Sizing.uniformGap g)%js /\
  Sizing.dotSize g2 =~ (Fin 2 * Sizing.dotSize g)%js /\
  Sizing.cellWidth g2 =~ (Fin 2 * Sizing.cellWidth g)%js /\
  Sizing.cellHeight g2 r =~ (Fin 2 * Sizing.cellHeight g r)%js.
Proof.
  intros _ _ Hr r g g2.
  destruct (resolve_spec W H rows Hr)
    as (Hw & Hh & Hp & _ & _ & Hg & Hd & Hcw & Hch).
  destruct (resolve_spec (2 * W) (2 * H) rows Hr)
    as (Hw2 & Hh2 & Hp2 & _ & _ & Hg2 & Hd2 & Hcw2 & Hch2).
  repeat split; eapply doubled; try eassumption.
  - apply SpecDoubling.cardW2.
  - apply SpecDoubling.cardH2.
  - apply SpecDoubling.padding2.
  - apply SpecDoubling.gap2.
  - apply SpecDoubling.dotSize2.
  - apply SpecDoubling.cellW2.
  - apply SpecDoubling.cellH2.
Qed.

Lemma doubling_canvas_doubles_geometry_witness :
  Sizing.dotSize (Sizing.resolve (Fin (2 * 390)) (Fin (2 * 844))
                                 (Fin (inject_Z 27)))
  =~ (Fin 2 * Sizing.dotSize (Sizing.resolve (Fin 390) (Fin 844)
                                             (Fin (inject_Z 27))))%js.
Proof.
  destruct (doubling_canvas_doubles_geometry 390 844 27)
    as (_ & _ & _ & _ & Hd & _); [reflexivity | reflexivity | lia |].
  exact Hd.
Defined.


(* ------------------------------------------------------------------ *)
(** ** Temporal values of a valid date *)

Lemma month_cases (m : Z) :
  0 <= m <= 11 ->
  m = 0 \/ m = 1 \/ m = 2 \/ m = 3 \/ m = 4 \/ m = 5 \/
  m = 6 \/ m = 7 \/ m = 8 \/ m = 9 \/ m = 10 \/ m = 11.
Proof. lia. Qed.

Ltac by_month H :=
  destruct (month_cases _ H) as [E|[E|[E|[E|[E|[E|[E|[E|[E|[E|[E|E]]]]]]]]]]];
  rewrite E in *.

Lemma isLeapYear_Gregorian (y : Z) :
  isLeapYear y = true <->
  (y mod 4 = 0 /\ y mod 100 <> 0) \/ y mod 400 = 0.
Proof.
  unfold isLeapYear.
  rewrite orb_true_iff, andb_true_iff, negb_true_iff, !Z.eqb_eq, Z.eqb_neq.
  tauto.
Qed.

(** The day of the year of [t], counted from 0. *)
Lemma dayOfYear_bounds (t : LocalTime) :
  wf t ->
  let e := daysBeforeMonth (year t) (month t) + (date t - 1) in
  0 <= e < (if isLeapYear (year t) then 366 else 365) /\
  (e = 0 <-> month t = 0 /\ date t = 1).
Proof.
  intros (Hm & Hd & _) e. subst e. revert Hd.
  unfold daysBeforeMonth, daysInMonth.
  by_month Hm; destruct (isLeapYear (year t)); lia.
Qed.

Lemma orElse_0_l (b : Z) : orElse 0 b = b.
Proof. reflexivity. Qed.

Lemma compareLocalAsc_sign (l e : LocalTime) :
  compareLocalAsc l e = -1 \/ compareLocalAsc l e = 0 \/
  compareLocalAsc l e = 1.
Proof.
  unfold compareLocalAsc. cbv zeta.
  destruct (localDiff l e <? 0) eqn:E1; [lia |].
  destruct (0 <? localDiff l e) eqn:E2; lia.
Qed.

Lemma totalDays_At (t : LocalTime) :
  Temporal.totalDays (At t) =
  Int (if isLeapYear (year t) then 366 else 365).
Proof.
  unfold Temporal.totalDays, Temporal.endYear, Temporal.startYear,
    endOfYear, startOfYear, differenceInDays, differenceInCalendarDays,
    compareLocalAsc, localDiff, onDayOf, dayNumber, daysBeforeMonth.
  cbn [year month date hours minutes seconds milliseconds].
  rewrite !Z.sub_diag. cbn [orElse Z.eqb Z.sub Z.add Z.opp Z.ltb Z.compare
    Pos.compare Pos.compare_cont Z.pos_sub Pos.pred_double].
  destruct (isLeapYear (year t)); cbn [iadd lift2]; f_equal; lia.
Qed.

Lemma orElse_zero (a b : Z) : orElse a b = 0 <-> a = 0 /\ b = 0.
Proof.
  unfold orElse. destruct (a =? 0) eqn:E.
  - apply Z.eqb_eq in E. lia.
  - apply Z.eqb_neq in E. lia.
Qed.

Lemma orElse_nonneg (a b : Z) : 0 <= a -> 0 <= b -> 0 <= orElse a b.
Proof. unfold orElse. destruct (a =? 0); lia. Qed.

(** Against the start of its own year a valid date never compares below. *)
Lemma localDiff_startOfYear (t : LocalTime) :
  wf t ->
  let d := localDiff t (mkTime (year t) 0 1 0 0 0 0) in
  0 <= d /\
  (d = 0 <-> month t = 0 /\ date t = 1 /\ hours t = 0 /\ minutes t = 0 /\
             seconds t = 0 /\ milliseconds t = 0).
Proof.
  intros (Hm & Hd & Hh & Hmi & Hs & Hms) d. subst d.
  unfold localDiff. cbn [year month date hours minutes seconds milliseconds].
  rewrite Z.sub_diag, orElse_0_l. split.
  - repeat apply orElse_nonneg; lia.
  - rewrite !orElse_zero. lia.
Qed.

Lemma localDiff_timeOfDay (t : LocalTime) :
  wf t ->
  let s := mkTime (year t) 0 1 0 0 0 0 in
  0 <= localDiff (onDayOf t s) s.
Proof.
  intros (Hm & Hd & Hh & Hmi & Hs & Hms) s. subst s.
  unfold localDiff, onDayOf.
  cbn [year month date hours minutes seconds milliseconds].
  rewrite !Z.sub_diag, !orElse_0_l.
  repeat apply orElse_nonneg; lia.
Qed.

Lemma compareLocalAsc_nonneg (l e : LocalTime) :
  0 <= localDiff l e ->
  0 <= compareLocalAsc l e <= 1 /\
  (compareLocalAsc l e = 0 <-> localDiff l e = 0).
Proof.
  intro H. unfold compareLocalAsc. cbv zeta.
  destruct (localDiff l e <? 0) eqn:E1; [apply Z.ltb_lt in E1; lia |].
  destruct (0 <? localDiff l e) eqn:E2.
  - apply Z.ltb_lt in E2. lia.
  - apply Z.ltb_ge in E2. lia.
Qed.

(** [daysPassed] is the day of the year, counted from 0: the days of the
    months before, and the days of this month before today. *)
Lemma daysPassed_At (t : LocalTime) :
  wf t ->
  Temporal.daysPassed (At t) =
  Int (daysBeforeMonth (year t) (month t) + (date t - 1)).
Proof.
  intro Hwf.
  destruct (dayOfYear_bounds t Hwf) as [He He0].
  destruct (localDiff_startOfYear t Hwf) as [Hd Hd0].
  pose proof (localDiff_timeOfDay t Hwf) as Hd2. cbv zeta in Hd2.
  destruct (compareLocalAsc_nonneg _ _ Hd) as [Hs Hs0].
  destruct (compareLocalAsc_nonneg _ _ Hd2) as [Hs2 _].
  unfold Temporal.daysPassed, Temporal.startYear, startOfYear,
    differenceInDays, differenceInCalendarDays.
  set (s := mkTime (year t) 0 1 0 0 0 0) in *.
  set (e := daysBeforeMonth (year t) (month t) + (date t - 1)) in *.
  replace (dayNumber t - dayNumber s) with e
    by (unfold dayNumber, e, s; cbn; lia).
  f_equal.
  destruct (compareLocalAsc (onDayOf t s) s =? - compareLocalAsc t s) eqn:E.
  - apply Z.eqb_eq in E.
    assert (compareLocalAsc t s = 0) as Hz by lia.
    rewrite Hz. apply Hs0 in Hz. apply Hd0 in Hz. lia.
  - apply Z.eqb_neq in E.
    assert (compareLocalAsc t s = 1) as H1.
    { destruct (Z.eq_dec (compareLocalAsc t s) 0) as [Hz | Hnz]; [| lia].
      exfalso. apply E.
      pose proof Hz as Hz'. apply Hs0 in Hz'. apply Hd0 in Hz'.
      destruct Hz' as (_ & _ & Hh & Hmi & Hse & Hms).
      rewrite Hz. unfold compareLocalAsc, localDiff, onDayOf, s.
      cbn [year month date hours minutes seconds milliseconds].
      rewrite Hh, Hmi, Hse, Hms, !Z.sub_diag. reflexivity. }
    rewrite H1. lia.
Qed.

Lemma mondayBased_range (day : Z) :
  0 <= day <= 6 ->
  exists o, Temporal.mondayBased (Int day) = Int o /\ 0 <= o <= 6 /\
            o = (if day =? 0 then 6 else day - 1).
Proof.
  intro H. unfold Temporal.mondayBased. cbn [ieq isub lift2].
  destruct (day =? 0) eqn:E.
  - exists 6. repeat split; lia.
  - apply Z.eqb_neq in E. exists (day - 1). repeat split; lia.
Qed.

Lemma getDay_At (t : LocalTime) :
  exists day, getDay (At t) = Int day /\ 0 <= day <= 6.
Proof.
  exists ((dayNumber t + 4) mod 7). split; [reflexivity |].
  pose proof (Z.mod_pos_bound (dayNumber t + 4) 7). lia.
Qed.

Lemma firstDayOfWeek_At (t : LocalTime) :
  exists o, Temporal.firstDayOfWeek (At t) = Int o /\ 0 <= o <= 6.
Proof.
  unfold Temporal.firstDayOfWeek, Temporal.startYear, startOfYear.
  destruct (getDay_At (mkTime (year t) 0 1 0 0 0 0)) as (day & Eday & Hday).
  rewrite Eday.
  destruct (mondayBased_range day Hday) as (o & Eo & Ho & _).
  exists o. split; assumption.
Qed.

(** Every year of 365 or 366 days fills 27 rows of 14, whatever weekday it
    starts on. *)
Lemma totalRows_27 (n o : Z) :
  365 <= n <= 366 -> 0 <= o <= 6 ->
  Temporal.totalRows (Int n) (Int o) = Int 27.
Proof.
  intros Hn Ho. unfold Temporal.totalRows. cbn [iadd lift2 iceil_div].
  f_equal.
  assert ((- (n + o)) / 14 = -27) as E.
  { symmetry. apply (Z.div_unique _ 14 (-27) (378 - (n + o))); lia. }
  rewrite E. reflexivity.
Qed.

Lemma totalRows_At (t : LocalTime) :
  Temporal.totalRows (Temporal.totalDays (At t))
                     (Temporal.firstDayOfWeek (At t)) = Int 27.
Proof.
  rewrite totalDays_At.
  destruct (firstDayOfWeek_At t) as (o & Eo & Ho). rewrite Eo.
  apply totalRows_27; [destruct (isLeapYear (year t)); lia | exact Ho].
Qed.

(** C4. A valid reference date has [totalDays] 365 or 366, computed as the
    whole-day difference from the start of its year to the end plus one, and
    366 exactly in a Gregorian leap year (divisible by 4 and not by 100, or
    divisible by 400). *)
Theorem totalDays_leap_year (t : LocalTime) :
  wf t ->
  let now := At t in
  Temporal.totalDays now =
    iadd (differenceInDays (endOfYear now) (startOfYear now)) (Int 1) /\
  (Temporal.totalDays now = Int 365 \/ Temporal.totalDays now = Int 366) /\
  (Temporal.totalDays now = Int 366 <->
   (year t mod 4 = 0 /\ year t mod 100 <> 0) \/ year t mod 400 = 0).
Proof.
  intros _ now. subst now. split; [reflexivity |].
  rewrite totalDays_At, <- isLeapYear_Gregorian.
  destruct (isLeapYear (year t)); split; auto.
  - tauto.
  - split; intro H; discriminate H.
Qed.

Lemma totalDays_leap_year_witness : Temporal.totalDays jun1_2024 = Int 366.
Proof.
  apply (totalDays_leap_year (mkTime 2024 5 1 9 30 0 0)).
  - unfold wf; cbn; lia.
  - left. split; [reflexivity | discriminate].
Defined.

(** C5, as the code has it.  At noon on 1 January no day has passed, yet noon
    is not the first instant of the year: the claimed equivalence fails. *)
Lemma elapsed_zero_after_first_instant :
  ~ (Temporal.daysPassed noon_jan1_2025 = Int 0 <->
     noon_jan1_2025 = Temporal.startYear noon_jan1_2025).
Proof.
  intros [H _].
  assert (E : noon_jan1_2025 = Temporal.startYear noon_jan1_2025)
    by (apply H; reflexivity).
  discriminate E.
Qed.

(** C5, amended.  For a valid reference date, [0 <= elapsedDays <
    totalDays], and [elapsedDays = 0] exactly when the date falls on
    1 January, the first day of its year, at whatever time of day. *)
Theorem elapsedDays_bounds (t : LocalTime) :
  wf t ->
  exists e n,
    Temporal.daysPassed (At t) = Int e /\
    Temporal.totalDays (At t) = Int n /\
    0 <= e < n /\
    (e = 0 <-> month t = 0 /\ date t = 1).
Proof.
  intro Hwf.
  exists (daysBeforeMonth (year t) (month t) + (date t - 1)).
  exists (if isLeapYear (year t) then 366 else 365).
  split; [apply daysPassed_At; exact Hwf |].
  split; [apply totalDays_At |].
  apply (dayOfYear_bounds t Hwf).
Qed.

Lemma elapsedDays_bounds_witness :
  exists e n,
    Temporal.daysPassed dec31_2025 = Int e /\
    Temporal.totalDays dec31_2025 = Int n /\
    0 <= e < n /\
    (e = 0 <-> 11 = 0 /\ 31 = 1).
Proof.
  apply (elapsedDays_bounds (mkTime 2025 11 31 23 59 59 0)).
  unfold wf; cbn; lia.
Defined.

(* ------------------------------------------------------------------ *)
(** ** Lists built by the loops *)

Lemma In_upto (n d : Z) : In d (upto (Int n)) <-> 0 <= d < n.
Proof.
  unfold upto. rewrite in_map_iff. split.
  - intros (i & <- & Hi). apply in_seq in Hi. lia.
  - intros H. exists (Z.to_nat d). split; [lia |]. apply in_seq. lia.
Qed.

Lemma flat_map_singleton {A B : Type} (g : A -> B) (l : list A) :
  flat_map (fun x => [g x]) l = map g l.
Proof. induction l as [| a l IH]; simpl; [| rewrite IH]; reflexivity. Qed.

Lemma filter_flat_map {A B : Type} (p : B -> bool) (f : A -> list B)
    (l : list A) :
  filter p (flat_map f l) = flat_map (fun x => filter p (f x)) l.
Proof.
  induction l as [| a l IH]; simpl; [reflexivity |].
  rewrite filter_app, IH. reflexivity.
Qed.

Lemma filter_none {A : Type} (p : A -> bool) (l : list A) :
  (forall x, In x l -> p x = false) -> filter p l = [].
Proof.
  induction l as [| a l IH]; simpl; intro H; [reflexivity |].
  rewrite (H a) by (left; reflexivity). apply IH. intros x Hx.
  apply H. right. exact Hx.
Qed.

(** Exactly one index of the loop equals a given index within its range. *)
Lemma one_match_in_seq (e start len : nat) :
  (start <= e < start + len)%nat ->
  length (filter (fun i => Z.of_nat i =? Z.of_nat e) (seq start len)) = 1%nat.
Proof.
  revert start. induction len as [| len IH]; intros start H; [lia |].
  simpl. destruct (Z.of_nat start =? Z.of_nat e) eqn:E.
  - apply Z.eqb_eq in E. simpl. f_equal.
    rewrite filter_none; [reflexivity |].
    intros x Hx. apply in_seq in Hx. apply Z.eqb_neq. lia.
  - apply Z.eqb_neq in E. apply IH. lia.
Qed.

Lemma one_match_in_upto (n e : Z) :
  0 <= e < n ->
  length (filter (fun d => d =? e) (upto (Int n))) = 1%nat.
Proof.
  intro H. unfold upto.
  replace e with (Z.of_nat (Z.to_nat e)) by lia.
  rewrite <- (one_match_in_seq (Z.to_nat e) 0 (Z.to_nat n)) by lia.
  generalize (seq 0 (Z.to_nat n)). intro l.
  induction l as [| a l IH]; simpl; [reflexivity |].
  destruct (Z.of_nat a =? Z.of_nat (Z.to_nat e)); simpl; rewrite IH;
    reflexivity.
Qed.

Lemma length_filter_flat_map {A B : Type} (p : B -> bool) (q : A -> bool)
    (f : A -> list B) (l : list A) :
  (forall x, In x l ->
     length (filter p (f x)) = if q x then 1%nat else 0%nat) ->
  length (filter p (flat_map f l)) = length (filter q l).
Proof.
  induction l as [| a l IH]; simpl; intro H; [reflexivity |].
  rewrite filter_app, length_app, (H a) by (left; reflexivity).
  rewrite IH by (intros x Hx; apply H; right; exact Hx).
  destruct (q a); reflexivity.
Qed.

(* ------------------------------------------------------------------ *)
(** ** Grid position of a day *)

Lemma grid_position (o d : Z) :
  0 <= o + d ->
  Grid.row (Grid.totalOffset (Int o) d) = Int ((o + d) / 14) /\
  Grid.positionInRow (Grid.totalOffset (Int o) d) = Int ((o + d) mod 14) /\
  Grid.col (Grid.positionInRow (Grid.totalOffset (Int o) d)) =
    Int (specCol ((o + d) mod 14)).
Proof.
  intro H.
  unfold Grid.row, Grid.col, Grid.positionInRow, Grid.totalOffset, specCol.
  cbn [iadd lift2 ifloor_div irem].
  rewrite Z.rem_mod_nonneg by lia. cbn [ilt iadd lift2].
  destruct ((o + d) mod 14 <? 7); auto.
Qed.

Lemma specCol_range (x : Z) :
  0 <= specCol (x mod 14) <= 14 /\ specCol (x mod 14) <> 7.
Proof.
  pose proof (Z.mod_pos_bound x 14). unfold specCol.
  destruct (x mod 14 <? 7) eqn:E;
    [apply Z.ltb_lt in E | apply Z.ltb_ge in E]; lia.
Qed.

Lemma classification (d e : Z) :
  (Grid.isPassed d (Int e) = true <-> d < e) /\
  (Grid.isToday d (Int e) = true <-> d = e) /\
  (if Grid.isPassed d (Int e) then OgRoute.cross
   else if Grid.isToday d (Int e) then OgRoute.today
   else OgRoute.dot) = dotType (classify d e).
Proof.
  unfold Grid.isPassed, Grid.isToday, classify. cbn [ilt ieq].
  rewrite Z.ltb_lt, Z.eqb_eq.
  destruct (d <? e), (d =? e); cbn [dotType]; tauto.
Qed.

(* ------------------------------------------------------------------ *)
(** ** The cells of the dynamic route *)

Lemma day_cells (fdow dp : int) (d : Z) :
  OgRoute.day fdow dp d =
  (if Grid.needsGapBefore (Grid.positionInRow (Grid.totalOffset fdow d))
   then [OgRoute.mkDot OgRoute.gap (Grid.row (Grid.totalOffset fdow d)) (Int 7)]
   else [])
  ++ [dayCell fdow dp d] /\
  isDay (dayCell fdow dp d) = true /\
  filter isDay (OgRoute.day fdow dp d) = [dayCell fdow dp d] /\
  OgRoute.type (dayCell fdow dp d) =
    (if Grid.isPassed d dp then OgRoute.cross
     else if Grid.isToday d dp then OgRoute.today else OgRoute.dot) /\
  OgRoute.row (dayCell fdow dp d) = Grid.row (Grid.totalOffset fdow d) /\
  OgRoute.col (dayCell fdow dp d) =
    Grid.col (Grid.positionInRow (Grid.totalOffset fdow d)).
Proof.
  unfold dayCell, OgRoute.day. cbv zeta.
  destruct (Grid.needsGapBefore _); cbn [app last];
    destruct (Grid.isPassed d dp), (Grid.isToday d dp);
    repeat split; reflexivity.
Qed.

Lemma leadingGap_not_day (fdow : int) :
  filter isDay (OgRoute.leadingGap fdow) = [].
Proof. unfold OgRoute.leadingGap. destruct (ige fdow (Int 7)); reflexivity. Qed.

(** The day cells of [dots], in order: one per day of the year. *)
Lemma filter_isDay_dots (n dp fdow : int) :
  filter isDay (OgRoute.dots n dp fdow) = map (dayCell fdow dp) (upto n).
Proof.
  unfold OgRoute.dots. rewrite !filter_app, leadingGap_not_day.
  rewrite filter_none.
  - cbn [app]. rewrite filter_flat_map.
    rewrite <- flat_map_singleton. apply flat_map_ext. intro d.
    apply (day_cells fdow dp d).
  - intros c Hc. apply in_map_iff in Hc. destruct Hc as (i & <- & _).
    reflexivity.
Qed.

Lemma dayCell_position (o d : Z) (dp : int) :
  0 <= o + d ->
  OgRoute.row (dayCell (Int o) dp d) = Int ((o + d) / 14) /\
  OgRoute.col (dayCell (Int o) dp d) = Int (specCol ((o + d) mod 14)).
Proof.
  intro H.
  destruct (day_cells (Int o) dp d) as (_ & _ & _ & _ & Hr & Hc).
  destruct (grid_position o d H) as (Hr' & _ & Hc').
  rewrite Hr, Hc. split; assumption.
Qed.

(** C1. With [totalDays >= 1] and a weekday offset in [0,6], the cell of day
    [d] is at row [floor((offset + d) / 14)] and, for [p = (offset + d) mod
    14], at column [p] when [p < 7] and [p + 1] otherwise; so its column is in
    [0,14] and never 7, the gap column.  This holds of the day cells of the
    dynamic route's [dots], which are exactly these cells in day order, and of
    the centre the configurable route draws each day at. *)
Theorem day_cell_placement (totalDays o : Z) (daysPassed : int) :
  1 <= totalDays -> 0 <= o <= 6 ->
  (forall d, 0 <= d < totalDays ->
     let r := (o + d) / 14 in
     let c := specCol ((o + d) mod 14) in
     OgRoute.row (dayCell (Int o) daysPassed d) = Int r /\
     OgRoute.col (dayCell (Int o) daysPassed d) = Int c /\
     0 <= c <= 14 /\ c <> 7 /\
     In (dayCell (Int o) daysPassed d)
        (OgRoute.dots (Int totalDays) daysPassed (Int o)) /\
     forall cardX cardY padding cellWidth cellHeight dotSize,
       ImageRoute.day (Int o) daysPassed cardX cardY padding cellWidth
                      cellHeight dotSize d =
       ImageRoute.shapes (Grid.isPassed d daysPassed)
                         (Grid.isToday d daysPassed)
                         (centreX cardX padding cellWidth c)
                         (centreY cardY padding cellHeight r) dotSize) /\
  filter isDay (OgRoute.dots (Int totalDays) daysPassed (Int o)) =
    map (dayCell (Int o) daysPassed) (upto (Int totalDays)) /\
  Forall (fun cell => isDay cell = true ->
            exists c, OgRoute.col cell = Int c /\ 0 <= c <= 14 /\ c <> 7)
         (OgRoute.dots (Int totalDays) daysPassed (Int o)).
Proof.
  intros Hn Ho.
  pose proof (filter_isDay_dots (Int totalDays) daysPassed (Int o)) as Hdays.
  split; [| split; [exact Hdays |]].
  - intros d Hd r c.
    destruct (dayCell_position o d daysPassed) as [Hr Hc]; [lia |].
    destruct (specCol_range (o + d)) as [Hrange H7].
    destruct (grid_position o d) as (Gr & _ & Gc); [lia |].
    repeat split; try assumption; try lia.
    + assert (In (dayCell (Int o) daysPassed d)
                 (filter isDay
                    (OgRoute.dots (Int totalDays) daysPassed (Int o)))) as Hin.
      { rewrite Hdays. apply in_map. apply In_upto. exact Hd. }
      apply filter_In in Hin. apply Hin.
    + intros. unfold ImageRoute.day. cbv zeta. rewrite Gr, Gc. reflexivity.
  - apply Forall_forall. intros cell Hin Hday.
    assert (In cell (filter isDay
              (OgRoute.dots (Int totalDays) daysPassed (Int o)))) as Hf
      by (apply filter_In; split; assumption).
    rewrite Hdays in Hf. apply in_map_iff in Hf.
    destruct Hf as (d & <- & Hd). apply In_upto in Hd.
    destruct (dayCell_position o d daysPassed) as [_ Hc]; [lia |].
    exists (specCol ((o + d) mod 14)). split; [exact Hc |].
    apply specCol_range.
Qed.

Lemma day_cell_placement_witness :
  OgRoute.row (dayCell (Int 2) (Int 40) 100) = Int 7 /\
  OgRoute.col (dayCell (Int 2) (Int 40) 100) = Int 4.
Proof.
  destruct (day_cell_placement 365 2 (Int 40)) as (H & _); [lia | lia |].
  destruct (H 100) as (Hr & Hc & _); [lia |].
  split; [exact Hr | exact Hc].
Defined.

(* ------------------------------------------------------------------ *)
(** ** Exactly one day is today *)

Lemma classify_cases (d e : Z) :
  (classify d e = Past <-> d < e) /\
  (classify d e = Today <-> d = e) /\
  (classify d e = Future <-> e < d).
Proof.
  unfold classify.
  destruct (d <? e) eqn:E1; [apply Z.ltb_lt in E1 | apply Z.ltb_ge in E1].
  - repeat split; intro H; try discriminate H; try lia; reflexivity.
  - destruct (d =? e) eqn:E2; [apply Z.eqb_eq in E2 | apply Z.eqb_neq in E2];
      repeat split; intro H; try discriminate H; try lia; reflexivity.
Qed.

Lemma flags (d e : Z) :
  Grid.isPassed d (Int e) = (d <? e) /\ Grid.isToday d (Int e) = (d =? e).
Proof. split; reflexivity. Qed.

Lemma today_flag (d e : Z) :
  (if d <? e then false else d =? e) = (d =? e).
Proof.
  destruct (d <? e) eqn:E1; [| reflexivity].
  apply Z.ltb_lt in E1. symmetry. apply Z.eqb_neq. lia.
Qed.

Lemma range_upto (n : Z) : 0 <= n -> DailyDots.range (Int n) = upto (Int n).
Proof.
  intro H. unfold DailyDots.range, upto.
  destruct (n <? 0) eqn:E; [apply Z.ltb_lt in E; lia | reflexivity].
Qed.

Lemma og_one_today (n e : Z) (fdow : int) :
  0 <= e < n ->
  length (filter isTodayDot (OgRoute.dots (Int n) (Int e) fdow)) = 1%nat.
Proof.
  intro H. unfold OgRoute.dots. rewrite !filter_app, !length_app.
  rewrite filter_none.
  2:{ intros c Hc. apply in_map_iff in Hc. destruct Hc as (i & <- & _).
      reflexivity. }
  replace (filter isTodayDot (OgRoute.leadingGap fdow)) with (@nil OgRoute.Dot)
    by (unfold OgRoute.leadingGap; destruct (ige fdow (Int 7)); reflexivity).
  cbn [length Nat.add].
  rewrite (length_filter_flat_map _ (fun d => d =? e)).
  - apply one_match_in_upto. exact H.
  - intros d _. destruct (day_cells fdow (Int e) d) as (-> & _ & _ & Ht & _).
    rewrite filter_app, length_app.
    replace (length (filter isTodayDot _)) with 0%nat
      by (destruct (Grid.needsGapBefore _); reflexivity).
    cbn [filter Nat.add]. unfold isTodayDot. rewrite Ht.
    destruct (flags d e) as [-> ->]. rewrite <- (today_flag d e).
    destruct (d <? e); [reflexivity |]. destruct (d =? e); reflexivity.
Qed.

Lemma component_one_today (n e : Z) (fdow : int) (dotSize : num) :
  0 <= e < n ->
  length (filter isTodayIcon
            (DailyDots.children (Int n) (Int e) fdow dotSize)) = 1%nat.
Proof.
  intro H. unfold DailyDots.children. rewrite !filter_app, !length_app.
  rewrite filter_none.
  2:{ intros c Hc. apply in_map_iff in Hc. destruct Hc as (i & <- & _).
      reflexivity. }
  replace (filter isTodayIcon (if ige fdow (Int 7) then _ else _))
    with (@nil DailyDots.Node) by (destruct (ige fdow (Int 7)); reflexivity).
  cbn [length Nat.add]. rewrite range_upto by lia.
  rewrite (length_filter_flat_map _ (fun d => d =? e)).
  - apply one_match_in_upto. exact H.
  - intros d _. unfold DailyDots.day, DailyDots.icon. cbv zeta.
    rewrite filter_app, length_app.
    replace (length (filter isTodayIcon
                       (if Grid.needsGapBefore _ then _ else _))) with 0%nat
      by (destruct (Grid.needsGapBefore _); reflexivity).
    destruct (flags d e) as [-> ->]. rewrite <- (today_flag d e).
    destruct (d <? e); [reflexivity |]. destruct (d =? e); reflexivity.
Qed.

Lemma image_one_today (n e : Z) (fdow : int)
    (cardX cardY padding cellWidth cellHeight dotSize : num) :
  0 <= e < n ->
  length (filter isTodayCircle
            (flat_map (ImageRoute.day fdow (Int e) cardX cardY padding
                                      cellWidth cellHeight dotSize)
                      (upto (Int n)))) = 1%nat.
Proof.
  intro H. rewrite (length_filter_flat_map _ (fun d => d =? e)).
  - apply one_match_in_upto. exact H.
  - intros d _. unfold ImageRoute.day, ImageRoute.shapes. cbv zeta.
    destruct (flags d e) as [-> ->]. rewrite <- (today_flag d e).
    destruct (d <? e); [reflexivity |]. destruct (d =? e); reflexivity.
Qed.

(** C6. With [0 <= elapsedDays < totalDays], day [d] is Past exactly when
    [d < elapsedDays], Today exactly when [d = elapsedDays] and Future
    otherwise, on every surface; so each surface draws exactly one Today. *)
Theorem one_today (totalDays elapsedDays : Z) (firstDayOfWeek : int) :
  0 <= elapsedDays < totalDays ->
  (forall d, 0 <= d < totalDays ->
     let k := classify d elapsedDays in
     let isPassed := Grid.isPassed d (Int elapsedDays) in
     let isToday := Grid.isToday d (Int elapsedDays) in
     (k = Past <-> d < elapsedDays) /\
     (k = Today <-> d = elapsedDays) /\
     (k = Future <-> elapsedDays < d) /\
     OgRoute.type (dayCell firstDayOfWeek (Int elapsedDays) d) = dotType k /\
     (forall dotSize,
        nodeKind (DailyDots.icon dotSize isPassed isToday) = Some k) /\
     (forall x y dotSize,
        Forall (fun el => elementKind el = k)
               (ImageRoute.shapes isPassed isToday x y dotSize))) /\
  length (filter isTodayDot
            (OgRoute.dots (Int totalDays) (Int elapsedDays) firstDayOfWeek))
    = 1%nat /\
  (forall dotSize,
     length (filter isTodayIcon
               (DailyDots.children (Int totalDays) (Int elapsedDays)
                                   firstDayOfWeek dotSize)) = 1%nat) /\
  (forall cardX cardY padding cellWidth cellHeight dotSize,
     length (filter isTodayCircle
               (flat_map (ImageRoute.day firstDayOfWeek (Int elapsedDays)
                            cardX cardY padding cellWidth cellHeight dotSize)
                         (upto (Int totalDays)))) = 1%nat).
Proof.
  intro H. split; [| split; [| split]].
  - intros d _ k isPassed isToday. subst k isPassed isToday.
    destruct (classify_cases d elapsedDays) as (Hp & Ht & Hf).
    destruct (classification d elapsedDays) as (_ & _ & Hty).
    destruct (day_cells firstDayOfWeek (Int elapsedDays) d)
      as (_ & _ & _ & Hcell & _).
    repeat split; try (apply Hp); try (apply Ht); try (apply Hf).
    + rewrite Hcell. exact Hty.
    + intro dotSize. unfold DailyDots.icon, classify.
      destruct (flags d elapsedDays) as [-> ->].
      destruct (d <? elapsedDays); [reflexivity |].
      destruct (d =? elapsedDays); reflexivity.
    + intros x y dotSize. unfold ImageRoute.shapes, classify.
      destruct (flags d elapsedDays) as [-> ->].
      destruct (d <? elapsedDays); [repeat constructor |].
      destruct (d =? elapsedDays); repeat constructor.
  - apply og_one_today. exact H.
  - intro dotSize. apply component_one_today. exact H.
  - intros. apply image_one_today. exact H.
Qed.

Lemma one_today_witness :
  length (filter isTodayDot (OgRoute.dots (Int 365) (Int 364) (Int 2)))
    = 1%nat.
Proof.
  destruct (one_today 365 364 (Int 2)) as (_ & H & _); [lia |].
  exact H.
Defined.

(* ------------------------------------------------------------------ *)
(** ** Nothing but empty slots before day 0 *)

Lemma upto_first (n : Z) :
  1 <= n -> exists rest, upto (Int n) = 0 :: rest.
Proof.
  intro H. unfold upto. destruct (Z.to_nat n) as [| k] eqn:E; [lia |].
  cbn [seq map]. eexists. reflexivity.
Qed.

Lemma no_gap_before_day0 (o : Z) :
  0 <= o <= 6 ->
  Grid.needsGapBefore (Grid.positionInRow (Grid.totalOffset (Int o) 0)) = false.
Proof.
  intro H. destruct (grid_position o 0) as (_ & -> & _); [lia |].
  unfold Grid.needsGapBefore. cbn [ieq]. apply Z.eqb_neq.
  rewrite Z.add_0_r, Z.mod_small; lia.
Qed.

Lemma ige_small (o : Z) : 0 <= o <= 6 -> ige (Int o) (Int 7) = false.
Proof. intro H. cbn [ige]. apply Z.leb_gt. lia. Qed.

Lemma component_day_no_GapFirst (fdow dp : int) (dotSize : num) (l : list Z) :
  ~ In DailyDots.GapFirst (flat_map (DailyDots.day fdow dp dotSize) l).
Proof.
  intro Hin. apply in_flat_map in Hin. destruct Hin as (d & _ & Hin).
  unfold DailyDots.day, DailyDots.icon in Hin. cbv zeta in Hin.
  apply in_app_or in Hin. destruct Hin as [Hin | Hin].
  - destruct (Grid.needsGapBefore _); [| contradiction].
    destruct Hin as [Hin | []]. discriminate Hin.
  - destruct Hin as [Hin | []].
    destruct (Grid.isPassed d dp); [discriminate Hin |].
    destruct (Grid.isToday d dp); discriminate Hin.
Qed.

(** C10. For a reference date, the weekday of 1 January is in [0,6] and its
    remap [day == 0 ? 6 : day - 1] is again in [0,6]; so the test
    [firstDayOfWeek >= 7] is false, the leading gap at row 0, column 7 is
    never pushed, and what precedes day 0 on a surface is the
    [firstDayOfWeek] empty slots and nothing else. *)
Theorem leading_gap_unreachable (t : LocalTime) :
  wf t ->
  let now := At t in
  let firstDayOfWeek := Temporal.firstDayOfWeek now in
  exists day o,
    getDay (Temporal.startYear now) = Int day /\ 0 <= day <= 6 /\
    firstDayOfWeek = Int o /\ o = (if day =? 0 then 6 else day - 1) /\
    0 <= o <= 6 /\
    ige firstDayOfWeek (Int 7) = false /\
    OgRoute.leadingGap firstDayOfWeek = [] /\
    (forall totalDays daysPassed, 1 <= totalDays ->
       exists rest,
         OgRoute.dots (Int totalDays) daysPassed firstDayOfWeek =
         map OgRoute.emptySlot (upto (Int o))
         ++ dayCell firstDayOfWeek daysPassed 0 :: rest) /\
    Forall (fun cell => OgRoute.type cell = OgRoute.empty)
           (map OgRoute.emptySlot (upto (Int o))) /\
    (forall totalDays daysPassed dotSize,
       ~ In DailyDots.GapFirst
            (DailyDots.children totalDays daysPassed firstDayOfWeek dotSize)) /\
    (forall totalDays daysPassed dotSize, 1 <= totalDays ->
       exists rest,
         DailyDots.children (Int totalDays) daysPassed firstDayOfWeek dotSize =
         map (fun _ => DailyDots.EmptySlot dotSize) (upto (Int o))
         ++ DailyDots.icon dotSize (Grid.isPassed 0 daysPassed)
                           (Grid.isToday 0 daysPassed) :: rest).
Proof.
  intros _ now firstDayOfWeek. subst now firstDayOfWeek.
  unfold Temporal.firstDayOfWeek.
  destruct (getDay_At (mkTime (year t) 0 1 0 0 0 0)) as (day & Eday & Hday).
  change (Temporal.startYear (At t)) with (At (mkTime (year t) 0 1 0 0 0 0)).
  rewrite Eday.
  destruct (mondayBased_range day Hday) as (o & Eo & Ho & Hremap).
  rewrite Eo. exists day, o.
  pose proof (ige_small o Ho) as Hge.
  pose proof (no_gap_before_day0 o Ho) as Hgap.
  repeat split; try assumption; try lia.
  - unfold OgRoute.leadingGap. rewrite Hge. reflexivity.
  - intros totalDays daysPassed Hn.
    destruct (upto_first totalDays Hn) as (ds & Eds).
    unfold OgRoute.dots, OgRoute.leadingGap. rewrite Hge, Eds.
    cbn [app flat_map].
    destruct (day_cells (Int o) daysPassed 0) as (-> & _).
    rewrite Hgap. cbn [app]. eexists. reflexivity.
  - apply Forall_forall. intros cell Hin. apply in_map_iff in Hin.
    destruct Hin as (i & <- & _). reflexivity.
  - intros totalDays daysPassed dotSize Hin.
    unfold DailyDots.children in Hin. rewrite Hge in Hin. cbn [app] in Hin.
    apply in_app_or in Hin. destruct Hin as [Hin | Hin].
    + apply in_map_iff in Hin. destruct Hin as (i & Hi & _). discriminate Hi.
    + exact (component_day_no_GapFirst _ _ _ _ Hin).
  - intros totalDays daysPassed dotSize Hn.
    destruct (upto_first totalDays Hn) as (ds & Eds).
    unfold DailyDots.children. rewrite Hge, !range_upto by lia. rewrite Eds.
    cbn [app flat_map]. unfold DailyDots.day at 1. cbv zeta.
    rewrite Hgap. cbn [app]. eexists. reflexivity.
Qed.

Lemma leading_gap_unreachable_witness :
  OgRoute.leadingGap (Temporal.firstDayOfWeek jan1_2025) = [].
Proof.
  destruct (leading_gap_unreachable (mkTime 2025 0 1 0 0 0 0))
    as (day & o & _ & _ & _ & _ & _ & _ & H & _).
  - unfold wf; cbn; lia.
  - exact H.
Defined.

(* ------------------------------------------------------------------ *)
(** ** Size factors on the three surfaces *)

Lemma drawnAt_Fin (x factor d : Q) :
  (x == factor * d)%Q -> drawnAt (Some (Fin x)) factor d.
Proof. intro E. exists (Fin x). split; [reflexivity | exact E]. Qed.

(** C3, as the code has it.  With a dot size of 10 the component draws the
    cross of a past day at size 13, not at 1 x 10. *)
Lemma component_cross_not_unit :
  ~ drawnAt (nodeSize (DailyDots.icon (Fin 10) true false)) 1 10.
Proof.
  intros (s & E & Hs). cbn in E. injection E as <-. cbn in Hs. discriminate Hs.
Qed.

(** C3, amended.  Both image routes draw a Past cross at 1 x dotSize, a
    Future dot at 1.0 x dotSize and Today at 1.8 x dotSize (the configurable
    route as the shapes of those icons: cross arms 0.4 and stroke 0.2, future
    radius 0.4, today radius 0.9 of dotSize).  The interactive component
    draws Future at 1.0 x and Today at 1.8 x as well, but its Past cross at
    1.3 x dotSize. *)
Theorem size_factors (d : Q) :
  (forall cw ch row col,
     drawnAt (svgSize (Fin d) cw ch OgRoute.cross row col) 1 d /\
     drawnAt (svgSize (Fin d) cw ch OgRoute.dot row col) 1 d /\
     drawnAt (svgSize (Fin d) cw ch OgRoute.today row col) (18 # 10) d) /\
  (forall x y isToday,
     exists arm stroke,
       ImageRoute.shapes true isToday x y (Fin d) =
         [ImageRoute.Line (x - arm) (y - arm) (x + arm) (y + arm) stroke;
          ImageRoute.Line (x + arm) (y - arm) (x - arm) (y + arm) stroke]%js /\
       arm =~ Fin (viewBox (1 * d) 4) /\
       stroke =~ Fin (viewBox (1 * d) 2)) /\
  (forall x y,
     exists r,
       ImageRoute.shapes false false x y (Fin d) =
         [ImageRoute.FutureCircle x y r] /\
       r =~ Fin (viewBox (1 * d) 4)) /\
  (forall x y,
     exists r,
       ImageRoute.shapes false true x y (Fin d) =
         [ImageRoute.TodayCircle x y r] /\
       r =~ Fin (viewBox ((18 # 10) * d) 5)) /\
  (forall isToday,
     drawnAt (nodeSize (DailyDots.icon (Fin d) true isToday)) (13 # 10) d) /\
  drawnAt (nodeSize (DailyDots.icon (Fin d) false false)) 1 d /\
  drawnAt (nodeSize (DailyDots.icon (Fin d) false true)) (18 # 10) d.
Proof.
  repeat split.
  - apply drawnAt_Fin. ring.
  - apply drawnAt_Fin. ring.
  - apply drawnAt_Fin. ring.
  - intros x y isToday. eexists. eexists. split; [reflexivity |].
    split; unfold dec; cbn [num_eq nmul]; unfold viewBox; field.
  - intros x y. eexists. split; [reflexivity |].
    unfold dec; cbn [num_eq nmul]; unfold viewBox; field.
  - intros x y. eexists. split; [reflexivity |].
    unfold dec; cbn [num_eq nmul]; unfold viewBox; field.
  - intro isToday. apply drawnAt_Fin. ring.
  - apply drawnAt_Fin. ring.
  - apply drawnAt_Fin. ring.
Qed.

(* ------------------------------------------------------------------ *)
(** ** Requests the specification wants rejected *)

Lemma temporal_Invalid :
  Temporal.totalDays Invalid = INaN /\
  Temporal.daysPassed Invalid = INaN /\
  Temporal.firstDayOfWeek Invalid = INaN /\
  Temporal.totalRows INaN INaN = INaN.
Proof. repeat split. Qed.

(** Sizing with a [NaN] row count: what depends on the canvas alone is
    computed, the gap and the dot size are [NaN]. *)
Lemma resolve_NaN (W H : Q) :
  let g := Sizing.resolve (Fin W) (Fin H) NaN in
  Sizing.cardWidth g =~ Fin (SpecGeometry.cardW W) /\
  Sizing.cardHeight g =~ Fin (SpecGeometry.cardH H) /\
  Sizing.padding g =~ Fin (SpecGeometry.padding W H) /\
  Sizing.availableWidth g =~ Fin (SpecGeometry.availableW W H) /\
  Sizing.availableHeight g =~ Fin (SpecGeometry.availableH W H) /\
  Sizing.cellWidth g =~ Fin (SpecGeometry.cellW W H) /\
  Sizing.uniformGap g = NaN /\
  Sizing.dotSize g = NaN /\
  Sizing.cellHeight g NaN = NaN.
Proof.
  intro g. subst g.
  unfold Sizing.resolve, Sizing.cellWidth, Sizing.cellHeight, Sizing.cols, dec.
  cbv zeta.
  cbn [Sizing.cardWidth Sizing.cardHeight Sizing.padding Sizing.availableWidth
       Sizing.availableHeight Sizing.uniformGap Sizing.dotSize
       nmul nmin nsub nadd nneg].
  rewrite (ndiv_Fin _ 15) by (intro E; discriminate E).
  rewrite (ndiv_Fin _ (15 * 4)) by (intro E; discriminate E).
  cbn [num_eq nmin nmul ndiv].
  repeat split; spec_form W H;
    first [reflexivity | ring | apply Qmult_comm].
Qed.

(** C8, as the code has it.  For an unparseable date the dynamic route
    returns a response; it does not fail with [InvalidDateInput]. *)
Lemma invalid_date_not_rejected :
  OgRoute.GET (Int 390) (Int 844) Invalid <> Thrown InvalidDateInput /\
  ImageRoute.GET (Int 390) (Int 844) Invalid <> Thrown InvalidDateInput.
Proof. split; intro H; discriminate H. Qed.

(** C8, amended.  For a reference date that cannot be parsed no error is
    raised: both routes return a response in which the card, the padding, the
    available area and the cell width are computed from the canvas, while
    [totalDays], [elapsedDays], the gap, the dot size and the cell height are
    [NaN], the label is [NaN], and no day cell is emitted. *)
Theorem invalid_date_renders_NaN (width height : Z) :
  exists r r',
    OgRoute.GET (Int width) (Int height) Invalid = Returned r /\
    ImageRoute.GET (Int width) (Int height) Invalid = Returned r' /\
    OgRoute.cells r = [] /\ OgRoute.drawn r = [] /\
    ImageRoute.svgElements r' = [] /\
    OgRoute.caption r = mkLabel INaN NaN /\
    ImageRoute.caption r' = mkLabel INaN NaN /\
    ImageRoute.sizing r' = OgRoute.sizing r /\
    let g := OgRoute.sizing r in
    let W := inject_Z width in
    let H := inject_Z height in
    Sizing.cardWidth g =~ Fin (SpecGeometry.cardW W) /\
    Sizing.cardHeight g =~ Fin (SpecGeometry.cardH H) /\
    Sizing.padding g =~ Fin (SpecGeometry.padding W H) /\
    Sizing.availableWidth g =~ Fin (SpecGeometry.availableW W H) /\
    Sizing.availableHeight g =~ Fin (SpecGeometry.availableH W H) /\
    OgRoute.cellWidth r =~ Fin (SpecGeometry.cellW W H) /\
    Sizing.uniformGap g = NaN /\
    Sizing.dotSize g = NaN /\
    OgRoute.cellHeight r = NaN /\
    ImageRoute.cellHeight r' = NaN.
Proof.
  unfold OgRoute.GET, ImageRoute.GET. cbv zeta.
  destruct temporal_Invalid as (-> & -> & -> & ->).
  eexists. eexists. split; [reflexivity |]. split; [reflexivity |].
  cbn [OgRoute.cells OgRoute.drawn ImageRoute.svgElements OgRoute.caption
       ImageRoute.caption ImageRoute.sizing OgRoute.sizing OgRoute.cellWidth
       OgRoute.cellHeight ImageRoute.cellHeight of_int].
  do 6 (split; [reflexivity |]).
  destruct (resolve_NaN (inject_Z width) (inject_Z height)) as (H1 & H2 & H3 & H4 & H5 & H6 & H7 & H8 & H9).
  repeat split; assumption.
Qed.

Lemma length_upto (n : Z) : length (upto (Int n)) = Z.to_nat n.
Proof. unfold upto. rewrite length_map, length_seq. reflexivity. Qed.




(* ------------------------------------------------------------------ *)
(** ** The scenarios of the specification *)

Example scenario_A :
  Temporal.totalDays jan1_2025 = Int 365 /\
  Temporal.daysPassed jan1_2025 = Int 0 /\
  Temporal.firstDayOfWeek jan1_2025 = Int 2.
Proof. repeat split. Qed.

Example scenario_B :
  Temporal.daysPassed dec31_2025 = Int 364 /\
  classify 364 364 = Today /\ classify 363 364 = Past /\
  daysLeft (label (Temporal.totalDays dec31_2025)
                  (Temporal.daysPassed dec31_2025)) = Int 0.
Proof. repeat split. Qed.

Example scenario_C :
  Temporal.totalDays jun1_2024 = Int 366 /\
  Temporal.daysPassed jun1_2024 = Int 152.
Proof. repeat split. Qed.

Example scenario_D :
  let g := Sizing.resolve (Fin 390) (Fin 844) (Fin 27) in
  Sizing.cardWidth g =~ Fin (2925 # 10) /\
  Sizing.cardHeight g =~ Fin (40512 # 100) /\
  Temporal.totalRows (Int 365) (Int 2) = Int 27.
Proof. repeat split. Qed.

Example scenario_E :
  firstn 1 (OgRoute.dots (Int 365) (Int 0) (Int 0)) =
  [OgRoute.mkDot OgRoute.today (Int 0) (Int 0)].
Proof. reflexivity. Qed.

Example week_of_1_january :
  firstn 9 (OgRoute.dots (Int 365) (Int 3) (Int 2)) =
  [OgRoute.mkDot OgRoute.empty (Int 0) (Int 0);
   OgRoute.mkDot OgRoute.empty (Int 0) (Int 1);
   OgRoute.mkDot OgRoute.cross (Int 0) (Int 2);
   OgRoute.mkDot OgRoute.cross (Int 0) (Int 3);
   OgRoute.mkDot OgRoute.cross (Int 0) (Int 4);
   OgRoute.mkDot OgRoute.today (Int 0) (Int 5);
   OgRoute.mkDot OgRoute.dot (Int 0) (Int 6);
   OgRoute.mkDot OgRoute.gap (Int 0) (Int 7);
   OgRoute.mkDot OgRoute.dot (Int 0) (Int 8)].
Proof. reflexivity. Qed.

(* ------------------------------------------------------------------ *)
(** ** Rows of the grid *)

(** X1. Whatever the date, the year takes 27 rows: 365 or 366 days after at
    most 6 empty slots always end in the 27th row of 14. *)
Theorem every_year_has_27_rows (t : LocalTime) :
  Temporal.totalRows (Temporal.totalDays (At t))
                     (Temporal.firstDayOfWeek (At t)) = Int 27 /\
  exists n o,
    Temporal.totalDays (At t) = Int n /\
    Temporal.firstDayOfWeek (At t) = Int o /\
    365 <= n + o <= 372.
Proof.
  split; [apply totalRows_At |].
  destruct (firstDayOfWeek_At t) as (o & Eo & Ho).
  exists (if isLeapYear (year t) then 366 else 365), o.
  split; [apply totalDays_At |]. split; [exact Eo |].
  destruct (isLeapYear (year t)); lia.
Qed.

(** X2. [totalRows] is exact: it is one more than the row of the last day,
    and every day's row is below it. *)
Theorem totalRows_is_last_row_plus_one (n o : Z) (dp : int) :
  1 <= n -> 0 <= o ->
  exists rows,
    Temporal.totalRows (Int n) (Int o) = Int rows /\
    OgRoute.row (dayCell (Int o) dp (n - 1)) = Int (rows - 1) /\
    forall d, 0 <= d < n ->
      exists r, OgRoute.row (dayCell (Int o) dp d) = Int r /\ 0 <= r < rows.
Proof.
  intros Hn Ho. exists ((o + n - 1) / 14 + 1). split; [| split].
  - unfold Temporal.totalRows. cbn [iadd lift2 iceil_div]. f_equal.
    Z.to_euclidean_division_equations. lia.
  - destruct (dayCell_position o (n - 1) dp) as [Hr _]; [lia |].
    rewrite Hr. f_equal. replace (o + (n - 1)) with (o + n - 1) by lia. lia.
  - intros d Hd. destruct (dayCell_position o d dp) as [Hr _]; [lia |].
    exists ((o + d) / 14). split; [exact Hr |].
    Z.to_euclidean_division_equations. lia.
Qed.

Lemma totalRows_is_last_row_plus_one_witness :
  exists rows,
    Temporal.totalRows (Int 365) (Int 2) = Int rows /\
    OgRoute.row (dayCell (Int 2) (Int 0) (365 - 1)) = Int (rows - 1) /\
    forall d, 0 <= d < 365 ->
      exists r, OgRoute.row (dayCell (Int 2) (Int 0) d) = Int r /\
                0 <= r < rows.
Proof. apply (totalRows_is_last_row_plus_one 365 2 (Int 0)); lia. Defined.

Lemma specCol_inj (p q : Z) :
  0 <= p < 14 -> 0 <= q < 14 -> specCol p = specCol q -> p = q.
Proof.
  unfold specCol. intros Hp Hq.
  destruct (p <? 7) eqn:Ep; destruct (q <? 7) eqn:Eq;
    try apply Z.ltb_lt in Ep; try apply Z.ltb_lt in Eq;
    try apply Z.ltb_ge in Ep; try apply Z.ltb_ge in Eq; lia.
Qed.

(** X3. Two different days never share a cell: their (row, column) pairs
    differ. *)
Theorem days_have_distinct_cells (o d1 d2 : Z) (dp : int) :
  0 <= o -> 0 <= d1 -> 0 <= d2 -> d1 <> d2 ->
  (OgRoute.row (dayCell (Int o) dp d1), OgRoute.col (dayCell (Int o) dp d1))
  <> (OgRoute.row (dayCell (Int o) dp d2), OgRoute.col (dayCell (Int o) dp d2)).
Proof.
  intros Ho H1 H2 Hne Heq.
  destruct (dayCell_position o d1 dp) as [Hr1 Hc1]; [lia |].
  destruct (dayCell_position o d2 dp) as [Hr2 Hc2]; [lia |].
  rewrite Hr1, Hr2, Hc1, Hc2 in Heq.
  injection Heq as Hrow Hcol.
  apply specCol_inj in Hcol; try (apply Z.mod_pos_bound; lia).
  pose proof (Z.div_mod (o + d1) 14). pose proof (Z.div_mod (o + d2) 14).
  lia.
Qed.

Lemma days_have_distinct_cells_witness :
  (OgRoute.row (dayCell (Int 2) (Int 9) 4), OgRoute.col (dayCell (Int 2) (Int 9) 4))
  <> (OgRoute.row (dayCell (Int 2) (Int 9) 5),
      OgRoute.col (dayCell (Int 2) (Int 9) 5)).
Proof. apply (days_have_distinct_cells 2 4 5 (Int 9)); lia. Defined.

(* ------------------------------------------------------------------ *)
(** ** The cells flow like the children of a 15-column grid *)

Lemma flows_app (a : Z) (l1 l2 : list OgRoute.Dot) :
  flows a l1 -> flows (a + Z.of_nat (length l1)) l2 -> flows a (l1 ++ l2).
Proof.
  revert a. induction l1 as [| c l1 IH]; intros a H1 H2.
  - cbn [length app] in *. rewrite Z.add_0_r in H2. exact H2.
  - cbn [app flows] in *. destruct H1 as [Hc H1]. split; [exact Hc |].
    apply IH; [exact H1 |].
    replace (a + 1 + Z.of_nat (length l1))
      with (a + Z.of_nat (S (length l1))) by lia.
    exact H2.
Qed.

Lemma flows_nth (l : list OgRoute.Dot) (a : Z) (i : nat) (c : OgRoute.Dot) :
  flows a l -> nth_error l i = Some c -> atFlow (a + Z.of_nat i) c.
Proof.
  revert a i. induction l as [| x l IH]; intros a i H Hn.
  - destruct i; discriminate Hn.
  - destruct H as [Hx H]. destruct i as [| i].
    + injection Hn as <-. rewrite Z.add_0_r. exact Hx.
    + replace (a + Z.of_nat (S i)) with (a + 1 + Z.of_nat i) by lia.
      apply IH; assumption.
Qed.

Lemma emptySlot_position (i : Z) :
  0 <= i < 7 ->
  OgRoute.row (OgRoute.emptySlot i) = Int 0 /\
  OgRoute.col (OgRoute.emptySlot i) = Int i.
Proof.
  intro H. unfold OgRoute.emptySlot, Grid.row, Grid.positionInRow, Grid.col.
  cbn [OgRoute.row OgRoute.col ifloor_div irem].
  rewrite Z.rem_mod_nonneg, Z.mod_small, Z.div_small by lia.
  cbn [ilt]. replace (i <? 7) with true by (symmetry; apply Z.ltb_lt; lia).
  split; reflexivity.
Qed.

Lemma flows_empties (len s : nat) :
  (s + len <= 7)%nat ->
  flows (Z.of_nat s) (map OgRoute.emptySlot (map Z.of_nat (seq s len))).
Proof.
  revert s. induction len as [| len IH]; intros s H; [exact I |].
  cbn [seq map flows]. split.
  - destruct (emptySlot_position (Z.of_nat s)) as [Hr Hc]; [lia |].
    unfold atFlow. rewrite Hr, Hc, Z.div_small, Z.mod_small by lia.
    split; reflexivity.
  - replace (Z.of_nat s + 1) with (Z.of_nat (S s)) by lia. apply IH. lia.
Qed.

Lemma flowStart_small (o : Z) : 0 <= o <= 7 -> flowStart o = o.
Proof.
  intro H. unfold flowStart. rewrite Z.div_small, Z.mod_small by lia.
  replace (o <=? 7) with true by (symmetry; apply Z.leb_le; lia). lia.
Qed.

Lemma next_offset (k : Z) :
  0 <= k ->
  (k mod 14 < 13 -> (k + 1) / 14 = k / 14 /\ (k + 1) mod 14 = k mod 14 + 1) /\
  (k mod 14 = 13 -> (k + 1) / 14 = k / 14 + 1 /\ (k + 1) mod 14 = 0).
Proof. intro H. split; intro Hp; Z.to_euclidean_division_equations; lia. Qed.

Lemma flow_of_cell (q c : Z) :
  0 <= c <= 14 -> (15 * q + c) / 15 = q /\ (15 * q + c) mod 15 = c.
Proof. intro H. Z.to_euclidean_division_equations. lia. Qed.

(** One turn of the day loop pushes its cells where the flow has got to. *)
Lemma flows_day (o d : Z) (dp : int) :
  0 <= o + d ->
  flows (flowStart (o + d)) (OgRoute.day (Int o) dp d) /\
  flowStart (o + d) + Z.of_nat (length (OgRoute.day (Int o) dp d))
  = flowStart (o + d + 1).
Proof.
  intro Hk.
  destruct (day_cells (Int o) dp d) as (-> & _).
  destruct (dayCell_position o d dp Hk) as [Hr Hc].
  destruct (grid_position o d Hk) as (Gr & Gp & _).
  rewrite Gp, Gr. unfold Grid.needsGapBefore. cbn [ieq].
  unfold flowStart, atFlow, specCol in *.
  pose proof (Z.mod_pos_bound (o + d) 14 ltac:(lia)) as Hp.
  pose proof (Z.div_mod (o + d) 14 ltac:(lia)) as Hq.
  set (p := (o + d) mod 14) in *. set (q := (o + d) / 14) in *.
  destruct (next_offset (o + d) Hk) as [Hnext Hnext13]. fold p q in Hnext, Hnext13.
  assert (Hflow : forall c, 0 <= c <= 14 ->
            (15 * q + c) / 15 = q /\ (15 * q + c) mod 15 = c)
    by (intros c Hc'; apply flow_of_cell; exact Hc').
  destruct (p =? 7) eqn:E7; [apply Z.eqb_eq in E7 | apply Z.eqb_neq in E7].
  - cbn [app flows length]. unfold atFlow. cbn [OgRoute.row OgRoute.col].
    rewrite Hr, Hc. rewrite E7 in *.
    change (7 <? 7) with false. change (7 <=? 7) with true. cbv iota.
    destruct (Hnext ltac:(lia)) as [-> ->].
    change (7 + 1 <=? 7) with false. cbv iota.
    destruct (Hflow 7 ltac:(lia)) as [-> ->].
    replace (15 * q + 7 + 1) with (15 * q + 8) by lia.
    destruct (Hflow 8 ltac:(lia)) as [-> ->].
    repeat split. cbn [length]. lia.
  - cbn [app flows length]. unfold atFlow. rewrite Hr, Hc.
    destruct (p <? 7) eqn:Elt;
      [apply Z.ltb_lt in Elt | apply Z.ltb_ge in Elt].
    + replace (p <=? 7) with true by (symmetry; apply Z.leb_le; lia).
      destruct (Hflow p ltac:(lia)) as [-> ->].
      destruct (Hnext ltac:(lia)) as [-> ->].
      replace (p + 1 <=? 7) with true by (symmetry; apply Z.leb_le; lia).
      repeat split. lia.
    + replace (p <=? 7) with false by (symmetry; apply Z.leb_gt; lia).
      destruct (Hflow (p + 1) ltac:(lia)) as [-> ->].
      destruct (Z.eq_dec p 13) as [E13 | E13].
      * destruct (Hnext13 E13) as [-> ->].
        change (0 <=? 7) with true. cbv iota. repeat split. lia.
      * destruct (Hnext ltac:(lia)) as [-> ->].
        replace (p + 1 <=? 7) with false by (symmetry; apply Z.leb_gt; lia).
        repeat split. lia.
Qed.

Lemma flows_days (o : Z) (dp : int) (len s : nat) :
  0 <= o ->
  let ds := flat_map (OgRoute.day (Int o) dp) (map Z.of_nat (seq s len)) in
  flows (flowStart (o + Z.of_nat s)) ds /\
  flowStart (o + Z.of_nat s) + Z.of_nat (length ds)
  = flowStart (o + Z.of_nat (s + len)).
Proof.
  intro Ho. revert s. induction len as [| len IH]; intros s ds; subst ds.
  - cbn [seq map flat_map flows length]. rewrite Nat.add_0_r. split; [exact I | lia].
  - cbn [seq map flat_map].
    destruct (flows_day o (Z.of_nat s) dp) as [Hd Hlen]; [lia |].
    destruct (IH (S s)) as [Hrest Hlen'].
    replace (o + Z.of_nat (S s)) with (o + Z.of_nat s + 1) in * by lia.
    split.
    + apply flows_app; [exact Hd |]. rewrite Hlen. exact Hrest.
    + rewrite length_app, Nat2Z.inj_add, Z.add_assoc, Hlen, Hlen'.
      f_equal. lia.
Qed.

Lemma dots_flows (n o : Z) (dp : int) :
  0 <= o <= 6 ->
  flows 0 (OgRoute.dots (Int n) dp (Int o)) /\
  Z.of_nat (length (OgRoute.dots (Int n) dp (Int o)))
  = flowStart (o + Z.max 0 n).
Proof.
  intro Ho.
  unfold OgRoute.dots, OgRoute.leadingGap. rewrite ige_small by exact Ho.
  cbn [app]. unfold upto.
  pose proof (flows_empties (Z.to_nat o) 0 ltac:(lia)) as He.
  destruct (flows_days o dp (Z.to_nat n) 0 ltac:(lia)) as [Hd Hlen].
  cbn [Z.of_nat] in He, Hd, Hlen. rewrite Z.add_0_r in Hd, Hlen.
  rewrite flowStart_small in Hd, Hlen by lia.
  assert (Hl : Z.of_nat (length (map OgRoute.emptySlot
                   (map Z.of_nat (seq 0 (Z.to_nat o))))) = o)
    by (rewrite !length_map, length_seq; lia).
  split.
  - apply flows_app; [exact He |]. rewrite Hl. exact Hd.
  - rewrite length_app, Nat2Z.inj_add, Hl, Hlen. f_equal. lia.
Qed.

(** X4. With a weekday offset in [0,6], the [i]-th element of [dots]
    (empty slot, gap spacer or day) is at row [i div 15] and column
    [i mod 15]: the explicit coordinates are those of children flowing into
    a grid of 15 columns, and [dots] has no hole and no overlap.  The array
    holds [15 * (k div 14) + (k mod 14) (+ 1 past the gap)] cells for
    [k = offset + totalDays]. *)
Theorem dots_flow_in_15_columns (n o : Z) (dp : int) :
  0 <= o <= 6 ->
  (forall i c,
     nth_error (OgRoute.dots (Int n) dp (Int o)) i = Some c ->
     OgRoute.row c = Int (Z.of_nat i / 15) /\
     OgRoute.col c = Int (Z.of_nat i mod 15)) /\
  Z.of_nat (length (OgRoute.dots (Int n) dp (Int o)))
  = flowStart (o + Z.max 0 n).
Proof.
  intro Ho. destruct (dots_flows n o dp Ho) as [Hf Hlen].
  split; [| exact Hlen].
  intros i c Hn. exact (flows_nth _ 0 i c Hf Hn).
Qed.

Lemma dots_flow_in_15_columns_witness :
  Z.of_nat (length (OgRoute.dots (Int 365) (Int 10) (Int 2)))
  = flowStart (2 + Z.max 0 365).
Proof. apply (dots_flow_in_15_columns 365 2 (Int 10)). lia. Defined.

(* ------------------------------------------------------------------ *)
(** ** The component's children and the route's cells *)

Lemma map_flat_map {A B C : Type} (f : B -> C) (g : A -> list B)
    (l : list A) :
  map f (flat_map g l) = flat_map (fun x => map f (g x)) l.
Proof.
  induction l as [| a l IH]; cbn [flat_map map]; [reflexivity |].
  rewrite map_app, IH. reflexivity.
Qed.

Lemma children_types (n o : Z) (dp : int) (dotSize : num) :
  0 <= n -> 0 <= o ->
  map nodeType (DailyDots.children (Int n) dp (Int o) dotSize)
  = map OgRoute.type (OgRoute.dots (Int n) dp (Int o)).
Proof.
  intros Hn Ho. unfold DailyDots.children, OgRoute.dots, OgRoute.leadingGap.
  rewrite !range_upto by lia. rewrite !map_app, !map_map, !map_flat_map.
  apply f_equal2; [| apply f_equal2].
  - apply map_ext. intro i. reflexivity.
  - destruct (ige (Int o) (Int 7)); reflexivity.
  - apply flat_map_ext. intro d.
    unfold DailyDots.day, OgRoute.day, DailyDots.icon. cbv zeta.
    destruct (Grid.needsGapBefore _), (Grid.isPassed d dp), (Grid.isToday d dp);
      reflexivity.
Qed.

(** X5. The component hands its grid the same sequence as the dynamic route's
    [dots]: child [i] is an empty slot, a gap spacer or a cross/today/dot icon
    exactly as cell [i] is, and that cell has row [i div 15] and column
    [i mod 15], where a grid of 15 columns puts child [i]. *)
Theorem component_children_match_dots (n o : Z) (dp : int) (dotSize : num) :
  0 <= n -> 0 <= o <= 6 ->
  map nodeType (DailyDots.children (Int n) dp (Int o) dotSize)
  = map OgRoute.type (OgRoute.dots (Int n) dp (Int o)) /\
  forall i node,
    nth_error (DailyDots.children (Int n) dp (Int o) dotSize) i = Some node ->
    exists cell,
      nth_error (OgRoute.dots (Int n) dp (Int o)) i = Some cell /\
      OgRoute.type cell = nodeType node /\
      OgRoute.row cell = Int (Z.of_nat i / 15) /\
      OgRoute.col cell = Int (Z.of_nat i mod 15).
Proof.
  intros Hn Ho.
  pose proof (children_types n o dp dotSize Hn ltac:(lia)) as Hty.
  split; [exact Hty |].
  intros i node Hi.
  assert (Hm : nth_error (map OgRoute.type (OgRoute.dots (Int n) dp (Int o))) i
               = Some (nodeType node))
    by (rewrite <- Hty; apply map_nth_error; exact Hi).
  rewrite nth_error_map in Hm.
  destruct (nth_error (OgRoute.dots (Int n) dp (Int o)) i) as [cell |] eqn:Ec;
    [| discriminate Hm].
  injection Hm as Hm. exists cell. split; [reflexivity |]. split; [exact Hm |].
  destruct (dots_flows n o dp Ho) as [Hf _].
  exact (flows_nth _ 0 i cell Hf Ec).
Qed.

Lemma component_children_match_dots_witness :
  map nodeType (DailyDots.children (Int 365) (Int 10) (Int 2) (Fin 4))
  = map OgRoute.type (OgRoute.dots (Int 365) (Int 10) (Int 2)).
Proof.
  apply (component_children_match_dots 365 2 (Int 10) (Fin 4)); lia.
Defined.

(** X6. The gap column holds the gap spacers and nothing else: with a weekday
    offset in [0,6], a cell of [dots] is in column 7 exactly when it is a gap
    spacer. *)
Theorem column_7_is_the_gap (n o : Z) (dp : int) (cell : OgRoute.Dot) :
  0 <= o <= 6 ->
  In cell (OgRoute.dots (Int n) dp (Int o)) ->
  (OgRoute.type cell = OgRoute.gap <-> OgRoute.col cell = Int 7).
Proof.
  intros Ho Hin. unfold OgRoute.dots, OgRoute.leadingGap in Hin.
  rewrite ige_small in Hin by exact Ho. cbn [app] in Hin.
  apply in_app_or in Hin. destruct Hin as [Hin | Hin].
  - apply in_map_iff in Hin. destruct Hin as (i & <- & Hi).
    apply In_upto in Hi.
    destruct (emptySlot_position i) as [_ Hc]; [lia |]. rewrite Hc.
    split; intro H; [discriminate H | injection H as H; lia].
  - apply in_flat_map in Hin. destruct Hin as (d & Hd & Hin).
    apply In_upto in Hd.
    destruct (day_cells (Int o) dp d) as (E & Hday & _ & _ & _ & _).
    rewrite E in Hin. apply in_app_or in Hin. destruct Hin as [Hin | Hin].
    + destruct (Grid.needsGapBefore _); [| contradiction].
      destruct Hin as [<- | []]. split; reflexivity.
    + destruct Hin as [<- | []].
      destruct (dayCell_position o d dp) as [_ Hc]; [lia |].
      destruct (specCol_range (o + d)) as [_ H7]. rewrite Hc.
      unfold isDay in Hday.
      split; intro H; [rewrite H in Hday; discriminate Hday |].
      injection H as H. contradiction.
Qed.

Lemma column_7_is_the_gap_witness :
  OgRoute.type (OgRoute.mkDot OgRoute.gap (Int 0) (Int 7)) = OgRoute.gap <->
  OgRoute.col (OgRoute.mkDot OgRoute.gap (Int 0) (Int 7)) = Int 7.
Proof.
  apply (column_7_is_the_gap 365 2 (Int 3)); [lia |].
  change (In (OgRoute.mkDot OgRoute.gap (Int 0) (Int 7))
             (OgRoute.dots (Int 365) (Int 3) (Int 2))).
  apply (nth_error_In _ 7). reflexivity.
Defined.

(* ------------------------------------------------------------------ *)
(** ** How much is drawn *)

Lemma isDrawn_draw (dotSize cw ch : num) (c : OgRoute.Dot) :
  isDrawn (OgRoute.draw dotSize cw ch c) = isDay c.
Proof.
  unfold OgRoute.draw, isDay. destruct (OgRoute.type c); reflexivity.
Qed.

Lemma filter_map_swap {A B : Type} (p : B -> bool) (f : A -> B) (l : list A) :
  filter p (map f l) = map f (filter (fun x => p (f x)) l).
Proof.
  induction l as [| a l IH]; cbn [map filter]; [reflexivity |].
  destruct (p (f a)); cbn [map]; rewrite IH; reflexivity.
Qed.

(** X7. The dynamic route draws one [<svg>] per day of the year and none for
    an empty slot or a gap spacer: [dots.map] returns [null] exactly on the
    placeholders, so [totalDays] elements are drawn whatever the weekday
    offset and the elapsed days. *)
Theorem one_svg_per_day (n : Z) (dp fdow : int) (dotSize cw ch : num) :
  (forall c, OgRoute.draw dotSize cw ch c = None <->
             OgRoute.type c = OgRoute.empty \/ OgRoute.type c = OgRoute.gap) /\
  length (filter isDrawn
            (map (OgRoute.draw dotSize cw ch)
                 (OgRoute.dots (Int n) dp fdow))) = Z.to_nat n.
Proof.
  split.
  - intro c. unfold OgRoute.draw.
    destruct (OgRoute.type c); split; intro H;
      try reflexivity; try discriminate H; try tauto;
      destruct H as [H | H]; discriminate H.
  - rewrite filter_map_swap, length_map.
    rewrite (filter_ext _ isDay) by (intro c; apply isDrawn_draw).
    rewrite filter_isDay_dots, length_map. apply length_upto.
Qed.

Lemma length_flat_map_1_or_2 {A B : Type} (f : A -> list B) (q : A -> bool)
    (l : list A) :
  (forall x, length (f x) = if q x then 2%nat else 1%nat) ->
  length (flat_map f l) = (length l + length (filter q l))%nat.
Proof.
  intro H. induction l as [| a l IH]; cbn [flat_map filter length];
    [reflexivity |].
  rewrite length_app, H, IH. destruct (q a); cbn [length]; lia.
Qed.

Lemma count_below (n e : Z) :
  0 <= e <= n ->
  length (filter (fun d => d <? e) (upto (Int n))) = Z.to_nat e.
Proof.
  intro H. unfold upto.
  replace (Z.to_nat n) with (Z.to_nat e + (Z.to_nat n - Z.to_nat e))%nat by lia.
  rewrite seq_app, map_app, filter_app, length_app.
  rewrite (filter_none _ (map Z.of_nat (seq (0 + Z.to_nat e) _))).
  - cbn [length].
    rewrite forallb_filter_id; [rewrite length_map, length_seq; lia |].
    apply forallb_forall. intros x Hx. apply in_map_iff in Hx.
    destruct Hx as (i & <- & Hi). apply in_seq in Hi. apply Z.ltb_lt. lia.
  - intros x Hx. apply in_map_iff in Hx. destruct Hx as (i & <- & Hi).
    apply in_seq in Hi. apply Z.ltb_ge. lia.
Qed.

(** X8. The configurable route pushes two [<line>]s for every past day and
    one [<circle>] for today and for every future day:
    [totalDays + elapsedDays] SVG elements in all. *)
Theorem svgElements_count (n e : Z) (fdow : int)
    (cardX cardY padding cw ch dotSize : num) :
  0 <= e <= n ->
  length (flat_map (ImageRoute.day fdow (Int e) cardX cardY padding cw ch
                                   dotSize)
                   (upto (Int n))) = Z.to_nat (n + e).
Proof.
  intro H.
  rewrite (length_flat_map_1_or_2 _ (fun d => d <? e)).
  - rewrite count_below by exact H. rewrite length_upto. lia.
  - intro d. unfold ImageRoute.day, ImageRoute.shapes. cbv zeta.
    destruct (flags d e) as [-> ->].
    destruct (d <? e); [reflexivity |]. destruct (d =? e); reflexivity.
Qed.

Lemma svgElements_count_witness :
  length (flat_map (ImageRoute.day (Int 2) (Int 100) (Fin 0) (Fin 0) (Fin 0)
                                   (Fin 1) (Fin 1) (Fin 1))
                   (upto (Int 365))) = Z.to_nat (365 + 100).
Proof. apply svgElements_count. lia. Defined.

(* ------------------------------------------------------------------ *)
(** ** The weekday remap and the label *)

(** X9. On the weekdays [0..6] the remap [day === 0 ? 6 : day - 1] is the
    [(getDay + 6) % 7] its comment announces: Monday becomes 0, Sunday 6, and
    no two weekdays are merged. *)
Theorem mondayBased_is_plus_6_mod_7 (day : Z) :
  0 <= day <= 6 ->
  Temporal.mondayBased (Int day) = Int ((day + 6) mod 7) /\
  forall day', 0 <= day' <= 6 ->
    Temporal.mondayBased (Int day') = Temporal.mondayBased (Int day) ->
    day' = day.
Proof.
  intro H.
  assert (Hmod : forall x, 0 <= x <= 6 ->
            Temporal.mondayBased (Int x) = Int ((x + 6) mod 7)).
  { intros x Hx. unfold Temporal.mondayBased. cbn [ieq isub lift2].
    destruct (x =? 0) eqn:E; [apply Z.eqb_eq in E | apply Z.eqb_neq in E];
      f_equal; Z.to_euclidean_division_equations; lia. }
  split; [apply Hmod; exact H |].
  intros day' H' E. rewrite !Hmod in E by assumption. injection E as E.
  revert E. Z.to_euclidean_division_equations. lia.
Qed.

Lemma mondayBased_is_plus_6_mod_7_witness :
  Temporal.mondayBased (Int 0) = Int ((0 + 6) mod 7).
Proof. apply (mondayBased_is_plus_6_mod_7 0). lia. Defined.

Lemma last_day_of_year (t : LocalTime) :
  wf t ->
  let e := daysBeforeMonth (year t) (month t) + (date t - 1) in
  let n := if isLeapYear (year t) then 366 else 365 in
  e = n - 1 <-> month t = 11 /\ date t = 31.
Proof.
  intros (Hm & Hd & _) e n. subst e n. revert Hd.
  unfold daysBeforeMonth, daysInMonth.
  by_month Hm; destruct (isLeapYear (year t)); lia.
Qed.

(** X10. For a valid date the label's days-left count
    [totalDays - daysPassed - 1] is never negative, is at most
    [totalDays - 1], and is 0 exactly on 31 December. *)
Theorem daysLeft_bounds (t : LocalTime) :
  wf t ->
  exists left n,
    daysLeft (label (Temporal.totalDays (At t)) (Temporal.daysPassed (At t)))
      = Int left /\
    Temporal.totalDays (At t) = Int n /\
    0 <= left <= n - 1 /\
    (left = 0 <-> month t = 11 /\ date t = 31) /\
    (left = n - 1 <-> month t = 0 /\ date t = 1).
Proof.
  intro Hwf.
  rewrite totalDays_At, daysPassed_At by exact Hwf.
  destruct (dayOfYear_bounds t Hwf) as [He He0].
  pose proof (last_day_of_year t Hwf) as Hlast. cbv zeta in Hlast.
  set (e := daysBeforeMonth (year t) (month t) + (date t - 1)) in *.
  set (n := if isLeapYear (year t) then 366 else 365) in *.
  exists (n - e - 1), n. cbn [label daysLeft isub lift2].
  split; [reflexivity |]. split; [reflexivity |].
  split; [lia |]. split.
  - rewrite <- Hlast. lia.
  - rewrite <- He0. lia.
Qed.

Lemma daysLeft_bounds_witness :
  exists left n,
    daysLeft (label (Temporal.totalDays dec31_2025)
                    (Temporal.daysPassed dec31_2025)) = Int left /\
    Temporal.totalDays dec31_2025 = Int n /\
    0 <= left <= n - 1 /\
    (left = 0 <-> 11 = 11 /\ 31 = 31) /\
    (left = n - 1 <-> 11 = 0 /\ 31 = 1).
Proof.
  apply (daysLeft_bounds (mkTime 2025 11 31 23 59 59 0)).
  unfold wf; cbn; lia.
Defined.

(* ------------------------------------------------------------------ *)
(** ** The geometry of a positive canvas *)

(** Everything [Sizing.resolve] computes on a positive canvas, as finite
    values with the relations between them, free of divisions. *)
Lemma sizing_facts (W H : Q) (rows : Z) :
  (0 < W)%Q -> (0 < H)%Q -> 1 <= rows ->
  exists cardW cardH pad aw ah gap cw ch : Q,
    Sizing.resolve (Fin W) (Fin H) (Fin (inject_Z rows)) =
      Sizing.mk (Fin cardW) (Fin cardH) (Fin pad) (Fin aw) (Fin ah) (Fin gap)
                (Fin (gap * (15 # 10))) /\
    Sizing.cellWidth (Sizing.resolve (Fin W) (Fin H) (Fin (inject_Z rows)))
      = Fin cw /\
    Sizing.cellHeight (Sizing.resolve (Fin W) (Fin H) (Fin (inject_Z rows)))
                      (Fin (inject_Z rows)) = Fin ch /\
    (cardW == (75 # 100) * W /\ cardH == (48 # 100) * H /\
     0 < pad /\ pad <= (4 # 100) * cardW /\ pad <= (4 # 100) * cardH /\
     aw == cardW - 2 * pad /\ ah == cardH - 2 * pad /\
     cw * 15 == aw /\ ch * inject_Z rows == ah /\
     0 < gap /\ gap * 4 <= cw /\ gap * 4 <= ch /\
     (gap * 4 == cw \/ gap * 4 == ch))%Q.
Proof.
  intros HW HH Hr.
  pose proof (rows_nonzero rows Hr) as Hr0.
  assert (HR : (1 <= inject_Z rows)%Q)
    by (unfold Qle; cbn; lia).
  rewrite resolve_Fin by exact Hr. cbv zeta.
  unfold Sizing.cellWidth, Sizing.cellHeight.
  cbn [Sizing.availableWidth Sizing.availableHeight].
  rewrite (ndiv_Fin _ (inject_Z rows)) by exact Hr0.
  rewrite (ndiv_Fin _ 15) by (intro E; discriminate E).
  set (cardW := (W * (75 # 100))%Q).
  set (cardH := (H * (48 # 100))%Q).
  set (pad := (Qmin cardW cardH * (4 # 100))%Q).
  set (aw := (cardW + - (pad * 2))%Q).
  set (ah := (cardH + - (pad * 2))%Q).
  set (gap := Qmin (aw / (15 * 4)) (ah / (inject_Z rows * 4))).
  exists cardW, cardH, pad, aw, ah, gap, (aw / 15)%Q, (ah / inject_Z rows)%Q.
  do 3 (split; [reflexivity |]).
  assert (HcW : (0 < cardW)%Q) by (unfold cardW; lra).
  assert (HcH : (0 < cardH)%Q) by (unfold cardH; lra).
  assert (Hpad : (0 < pad /\ pad <= (4 # 100) * cardW
                  /\ pad <= (4 # 100) * cardH)%Q).
  { unfold pad.
    pose proof (Q.le_min_l cardW cardH). pose proof (Q.le_min_r cardW cardH).
    destruct (Q.min_spec cardW cardH) as [[_ E] | [_ E]]; rewrite E in *; lra. }
  destruct Hpad as (Hp0 & Hp1 & Hp2).
  assert (Haw : (0 < aw)%Q) by (unfold aw; lra).
  assert (Hah : (0 < ah)%Q) by (unfold ah; lra).
  assert (Ecw : (aw / 15 * 15 == aw)%Q) by (field).
  assert (Ech : (ah / inject_Z rows * inject_Z rows == ah)%Q)
    by (field; exact Hr0).
  assert (Eg1 : (aw / (15 * 4) * 4 == aw / 15)%Q) by (field).
  assert (Eg2 : (ah / (inject_Z rows * 4) * 4 == ah / inject_Z rows)%Q)
    by (field; exact Hr0).
  assert (Hcw : (0 < aw / 15)%Q) by (apply Qlt_shift_div_l; lra).
  assert (Hch : (0 < ah / inject_Z rows)%Q) by (apply Qlt_shift_div_l; lra).
  pose proof (Q.le_min_l (aw / (15 * 4)) (ah / (inject_Z rows * 4))) as Hl.
  pose proof (Q.le_min_r (aw / (15 * 4)) (ah / (inject_Z rows * 4))) as Hrr.
  fold gap in Hl, Hrr.
  assert (Hg : (gap == aw / (15 * 4) \/ gap == ah / (inject_Z rows * 4))%Q).
  { unfold gap. destruct (Q.min_spec (aw / (15 * 4))
                            (ah / (inject_Z rows * 4))) as [[_ E] | [_ E]];
      [left | right]; exact E. }
  assert (Hg0 : (0 < gap)%Q) by (destruct Hg as [E | E]; rewrite E; lra).
  repeat match goal with |- _ /\ _ => split end;
    try (unfold cardW; lra); try (unfold cardH; lra);
    try (unfold aw; lra); try (unfold ah; lra); lra.
Qed.

Lemma ndiv_2 (x : Q) : ndiv (Fin x) (Fin 2) = Fin (x * (1 # 2)).
Proof. rewrite ndiv_Fin by (intro E; discriminate E). reflexivity. Qed.

Lemma inject_Z_pos_rows (rows : Z) : 1 <= rows -> (1 <= inject_Z rows)%Q.
Proof. intro H. unfold Qle. cbn. lia. Qed.

(** X11. On a positive canvas with at least one row every length the sizing
    code computes is finite and strictly positive; the padding leaves more
    than 90% of each card side available, and the dot size is less than half
    a cell side in either direction. *)
Theorem positive_canvas_positive_geometry (W H : Q) (rows : Z) :
  (0 < W)%Q -> (0 < H)%Q -> 1 <= rows ->
  let g := Sizing.resolve (Fin W) (Fin H) (Fin (inject_Z rows)) in
  let cw := Sizing.cellWidth g in
  let ch := Sizing.cellHeight g (Fin (inject_Z rows)) in
  fin_lt (Fin 0) (Sizing.padding g) /\
  fin_lt (Fin 0) (Sizing.availableWidth g) /\
  fin_lt (Fin 0) (Sizing.availableHeight g) /\
  fin_lt (Fin 0) (Sizing.uniformGap g) /\
  fin_lt (Fin 0) (Sizing.dotSize g) /\
  fin_lt (Fin 0) cw /\ fin_lt (Fin 0) ch /\
  fin_lt (dec 90 100 * Sizing.cardWidth g)%js (Sizing.availableWidth g) /\
  fin_lt (dec 90 100 * Sizing.cardHeight g)%js (Sizing.availableHeight g) /\
  fin_lt (Sizing.dotSize g * Fin 2)%js cw /\
  fin_lt (Sizing.dotSize g * Fin 2)%js ch.
Proof.
  intros HW HH Hr g cw ch. subst g cw ch.
  destruct (sizing_facts W H rows HW HH Hr)
    as (cardW & cardH & pad & aw & ah & gap & cw & ch & -> & -> & -> & F).
  destruct F as (EW & EH & Hp0 & Hp1 & Hp2 & Eaw & Eah & Ecw & Ech & Hg0
                 & Hg1 & Hg2 & _).
  unfold dec.
  cbn [Sizing.cardWidth Sizing.cardHeight Sizing.padding Sizing.availableWidth
       Sizing.availableHeight Sizing.uniformGap Sizing.dotSize nmul
       fin_lt].
  repeat match goal with |- _ /\ _ => split end; lra.
Qed.

Lemma positive_canvas_positive_geometry_witness :
  fin_lt (Fin 0)
         (Sizing.dotSize (Sizing.resolve (Fin 390) (Fin 844)
                                         (Fin (inject_Z 27)))).
Proof.
  destruct (positive_canvas_positive_geometry 390 844 27)
    as (_ & _ & _ & _ & H & _); [reflexivity | reflexivity | lia |].
  exact H.
Defined.

(** X12. The grid always fits the card: fifteen icons of the largest size
    (today's, 1.8 x dotSize) with the fourteen gaps between them are no wider
    than the available width, and one such icon per row with the gaps between
    the rows is no taller than the available height. *)
Theorem grid_fits_the_card (W H : Q) (rows : Z) :
  (0 < W)%Q -> (0 < H)%Q -> 1 <= rows ->
  let g := Sizing.resolve (Fin W) (Fin H) (Fin (inject_Z rows)) in
  let largest := (Sizing.dotSize g * dec 18 10)%js in
  let R := Fin (inject_Z rows) in
  fin_le (Fin 15 * largest + Fin 14 * Sizing.uniformGap g)%js
         (Sizing.availableWidth g) /\
  fin_le (R * largest + (R - Fin 1) * Sizing.uniformGap g)%js
         (Sizing.availableHeight g).
Proof.
  intros HW HH Hr g largest R. subst g largest R.
  pose proof (inject_Z_pos_rows rows Hr) as HR.
  destruct (sizing_facts W H rows HW HH Hr)
    as (cardW & cardH & pad & aw & ah & gap & cw & ch & -> & _ & _ & F).
  destruct F as (_ & _ & _ & _ & _ & _ & _ & Ecw & Ech & Hg0 & Hg1 & Hg2 & _).
  unfold dec.
  cbn [Sizing.availableWidth Sizing.availableHeight Sizing.uniformGap
       Sizing.dotSize nmul nadd nsub nneg fin_le].
  split; [lra |].
  assert (Hprod : (0 <= (inject_Z rows - 1) * gap)%Q)
    by (apply Qmult_le_0_compat; lra).
  assert (Hrows : (inject_Z rows * (gap * 4) <= inject_Z rows * ch)%Q)
    by (apply Qmult_le_l; lra).
  setoid_replace (inject_Z rows * ch)%Q with ah in Hrows
    by (rewrite <- Ech; ring).
  lra.
Qed.

Lemma grid_fits_the_card_witness :
  let g := Sizing.resolve (Fin 390) (Fin 844) (Fin (inject_Z 27)) in
  fin_le (Fin 15 * (Sizing.dotSize g * dec 18 10)
          + Fin 14 * Sizing.uniformGap g)%js
         (Sizing.availableWidth g).
Proof.
  destruct (grid_fits_the_card 390 844 27) as [Hw _];
    [reflexivity | reflexivity | lia |].
  exact Hw.
Defined.

(** X13. In the dynamic route every icon stays inside its own grid cell: the
    [<svg>] of a day in row [r] and column [c] begins at or after the cell's
    left and top edges and ends at or before its right and bottom edges, so
    neighbouring icons never overlap. *)
Theorem svg_within_its_cell (W H : Q) (rows r c : Z) (cell : OgRoute.Dot) :
  (0 < W)%Q -> (0 < H)%Q -> 1 <= rows ->
  isDay cell = true ->
  OgRoute.row cell = Int r -> OgRoute.col cell = Int c ->
  let g := Sizing.resolve (Fin W) (Fin H) (Fin (inject_Z rows)) in
  let cw := Sizing.cellWidth g in
  let ch := Sizing.cellHeight g (Fin (inject_Z rows)) in
  let cellLeft := (Fin (inject_Z c) * cw)%js in
  let cellTop := (Fin (inject_Z r) * ch)%js in
  exists svg,
    OgRoute.draw (Sizing.dotSize g) cw ch cell = Some svg /\
    fin_le cellLeft (OgRoute.left svg) /\
    fin_le (OgRoute.left svg + OgRoute.size svg)%js (cellLeft + cw)%js /\
    fin_le cellTop (OgRoute.top svg) /\
    fin_le (OgRoute.top svg + OgRoute.size svg)%js (cellTop + ch)%js.
Proof.
  intros HW HH Hr Hday Erow Ecol g cw ch cellLeft cellTop.
  subst g cw ch cellLeft cellTop.
  destruct (sizing_facts W H rows HW HH Hr)
    as (cardW & cardH & pad & aw & ah & gap & cw & ch & -> & -> & -> & F).
  destruct F as (_ & _ & _ & _ & _ & _ & _ & _ & _ & Hg0 & Hg1 & Hg2 & _).
  destruct cell as [ty row col]. cbn [OgRoute.row OgRoute.col] in Erow, Ecol.
  subst row col. unfold isDay in Hday. cbn [OgRoute.type] in Hday.
  unfold OgRoute.draw, dec.
  cbn [OgRoute.type OgRoute.row OgRoute.col Sizing.dotSize of_int nmul].
  rewrite !ndiv_2. cbn [nmul nadd nsub nneg].
  set (a := (inject_Z c * cw)%Q). set (b := (inject_Z r * ch)%Q).
  clearbody a b.
  destruct ty; try discriminate Hday; eexists; (split; [reflexivity |]);
    cbn [OgRoute.left OgRoute.top OgRoute.size nadd fin_le];
    repeat match goal with |- _ /\ _ => split end; lra.
Qed.

Lemma svg_within_its_cell_witness :
  let g := Sizing.resolve (Fin 390) (Fin 844) (Fin (inject_Z 27)) in
  let cw := Sizing.cellWidth g in
  let ch := Sizing.cellHeight g (Fin (inject_Z 27)) in
  exists svg,
    OgRoute.draw (Sizing.dotSize g) cw ch
                 (OgRoute.mkDot OgRoute.today (Int 3) (Int 8)) = Some svg /\
    fin_le (Fin (inject_Z 8) * cw)%js (OgRoute.left svg).
Proof.
  destruct (svg_within_its_cell 390 844 27 3 8
              (OgRoute.mkDot OgRoute.today (Int 3) (Int 8)))
    as (svg & Hs & Hl & _);
    [reflexivity | reflexivity | lia | reflexivity | reflexivity
     | reflexivity |].
  exists svg. split; [exact Hs | exact Hl].
Defined.

(** X14. For a positive integer width and height of at most 2^50 the
    configurable route centres the card and keeps it on the canvas: the card
    is three quarters of the width and starts an eighth of the width in
    (multiples of 1/8 below 2^53, so doubles compute them exactly), the two
    margins add up with the card to the width, and the card starts below the
    top of the canvas and ends above its bottom. *)
Theorem card_inside_canvas (width height : Z) (t : LocalTime) :
  0 < width <= 2 ^ 50 -> 0 < height <= 2 ^ 50 ->
  exists r,
    ImageRoute.GET (Int width) (Int height) (At t) = Returned r /\
    let cardWidth := Sizing.cardWidth (ImageRoute.sizing r) in
    let cardHeight := Sizing.cardHeight (ImageRoute.sizing r) in
    cardWidth =~ Fin (3 * width # 4) /\
    ImageRoute.cardX r =~ Fin (width # 8) /\
    fin_lt (Fin 0) (ImageRoute.cardX r) /\
    (ImageRoute.cardX r + cardWidth + ImageRoute.cardX r)%js
      =~ Fin (inject_Z width) /\
    fin_lt (Fin 0) (ImageRoute.cardY r) /\
    fin_lt (ImageRoute.cardY r + cardHeight)%js (Fin (inject_Z height)).
Proof.
  intros Hw Hh.
  assert (HW : (0 < inject_Z width)%Q) by (unfold Qlt; cbn; lia).
  assert (HH : (0 < inject_Z height)%Q) by (unfold Qlt; cbn; lia).
  assert (E4 : (3 * width # 4 == (3 # 4) * inject_Z width)%Q)
    by (unfold Qeq, Qmult, inject_Z; cbn [Qnum Qden]; lia).
  assert (E8 : (width # 8 == (1 # 8) * inject_Z width)%Q)
    by (unfold Qeq, Qmult, inject_Z; cbn [Qnum Qden]; lia).
  unfold ImageRoute.GET. cbv zeta. rewrite totalRows_At.
  eexists. split; [reflexivity |].
  cbn [ImageRoute.sizing ImageRoute.cardX ImageRoute.cardY of_int].
  destruct (sizing_facts (inject_Z width) (inject_Z height) 27 HW HH
              ltac:(lia))
    as (cardW & cardH & pad & aw & ah & gap & cw & ch & -> & _ & _ & F).
  destruct F as (EW & EH & _).
  unfold dec. cbn [Sizing.cardWidth Sizing.cardHeight nsub nneg nadd nmul].
  rewrite !ndiv_2. cbn [nadd fin_lt num_eq].
  repeat match goal with |- _ /\ _ => split end; lra.
Qed.

Lemma card_inside_canvas_witness :
  exists r,
    ImageRoute.GET (Int 390) (Int 844) jan1_2025 = Returned r /\
    fin_lt (Fin 0) (ImageRoute.cardX r).
Proof.
  destruct (card_inside_canvas 390 844 (mkTime 2025 0 1 0 0 0 0))
    as (r & Hr & _ & _ & Hx & _); [cbn; lia | cbn; lia |].
  exists r. split; [exact Hr | exact Hx].
Defined.

(** X15. In the configurable route every shape of a day (both strokes of a
    cross with their round caps, today's circle, a future circle) stays
    inside the day's own grid cell, whatever the card's origin. *)
Theorem shapes_within_their_cell (W H cardX cardY : Q) (rows r c : Z)
    (isPassed isToday : bool) :
  (0 < W)%Q -> (0 < H)%Q -> 1 <= rows ->
  let g := Sizing.resolve (Fin W) (Fin H) (Fin (inject_Z rows)) in
  let cw := Sizing.cellWidth g in
  let ch := Sizing.cellHeight g (Fin (inject_Z rows)) in
  let cellLeft := (Fin cardX + Sizing.padding g + Fin (inject_Z c) * cw)%js in
  let cellTop := (Fin cardY + Sizing.padding g + Fin (inject_Z r) * ch)%js in
  Forall (within cellLeft cellTop (cellLeft + cw)%js (cellTop + ch)%js)
         (ImageRoute.shapes isPassed isToday
            (centreX (Fin cardX) (Sizing.padding g) cw c)
            (centreY (Fin cardY) (Sizing.padding g) ch r)
            (Sizing.dotSize g)).
Proof.
  intros HW HH Hr g cw ch cellLeft cellTop.
  subst g cw ch cellLeft cellTop.
  destruct (sizing_facts W H rows HW HH Hr)
    as (cardW & cardH & pad & aw & ah & gap & cw & ch & -> & -> & -> & F).
  destruct F as (_ & _ & _ & _ & _ & _ & _ & _ & _ & Hg0 & Hg1 & Hg2 & _).
  unfold ImageRoute.shapes, centreX, centreY, dec.
  cbn [Sizing.dotSize Sizing.padding nmul nadd].
  rewrite !ndiv_2. cbn [nadd].
  set (a := (inject_Z c * cw)%Q). set (b := (inject_Z r * ch)%Q).
  clearbody a b.
  destruct isPassed; [| destruct isToday];
    repeat constructor; unfold within; cbv zeta;
    cbn [nmul nadd nsub nneg]; rewrite ?ndiv_2; cbn [nadd nsub nneg fin_le];
    lra.
Qed.

Lemma shapes_within_their_cell_witness :
  let g := Sizing.resolve (Fin 390) (Fin 844) (Fin (inject_Z 27)) in
  let cw := Sizing.cellWidth g in
  let ch := Sizing.cellHeight g (Fin (inject_Z 27)) in
  let cellLeft := (Fin 48 + Sizing.padding g + Fin (inject_Z 8) * cw)%js in
  let cellTop := (Fin 295 + Sizing.padding g + Fin (inject_Z 3) * ch)%js in
  Forall (within cellLeft cellTop (cellLeft + cw)%js (cellTop + ch)%js)
         (ImageRoute.shapes true false
            (centreX (Fin 48) (Sizing.padding g) cw 8)
            (centreY (Fin 295) (Sizing.padding g) ch 3)
            (Sizing.dotSize g)).
Proof.
  apply (shapes_within_their_cell 390 844 48 295 27 3 8 true false);
    [reflexivity | reflexivity | lia].
Defined.

(** X16. Every icon of the dynamic route lies strictly inside the card's
    padded area: for a day in a column in [0,14] and a row below the row
    count, its [<svg>] begins after the left and top edges of the available
    area and ends before its right and bottom edges. *)
Theorem icons_inside_available_area (W H : Q) (rows r c : Z)
    (cell : OgRoute.Dot) :
  (0 < W)%Q -> (0 < H)%Q -> 1 <= rows ->
  0 <= c <= 14 -> 0 <= r < rows ->
  isDay cell = true ->
  OgRoute.row cell = Int r -> OgRoute.col cell = Int c ->
  let g := Sizing.resolve (Fin W) (Fin H) (Fin (inject_Z rows)) in
  let cw := Sizing.cellWidth g in
  let ch := Sizing.cellHeight g (Fin (inject_Z rows)) in
  exists svg,
    OgRoute.draw (Sizing.dotSize g) cw ch cell = Some svg /\
    fin_lt (Fin 0) (OgRoute.left svg) /\
    fin_lt (OgRoute.left svg + OgRoute.size svg)%js (Sizing.availableWidth g) /\
    fin_lt (Fin 0) (OgRoute.top svg) /\
    fin_lt (OgRoute.top svg + OgRoute.size svg)%js (Sizing.availableHeight g).
Proof.
  intros HW HH Hr Hc Hrow Hday Erow Ecol g cw ch. subst g cw ch.
  destruct (sizing_facts W H rows HW HH Hr)
    as (cardW & cardH & pad & aw & ah & gap & cw & ch & -> & -> & -> & F).
  destruct F as (_ & _ & _ & _ & _ & _ & _ & Ecw & Ech & Hg0 & Hg1 & Hg2 & _).
  assert (Hc0 : (0 <= inject_Z c)%Q) by (unfold Qle; cbn; lia).
  assert (Hc14 : (inject_Z c <= 14)%Q) by (unfold Qle; cbn; lia).
  assert (Hr0 : (0 <= inject_Z r)%Q) by (unfold Qle; cbn; lia).
  assert (Hr1 : (inject_Z r + 1 <= inject_Z rows)%Q)
    by (unfold Qle, Qplus; cbn; lia).
  assert (Hcw : (0 <= cw)%Q) by lra.
  assert (Hch : (0 <= ch)%Q) by lra.
  assert (P1 : (0 <= inject_Z c * cw)%Q) by (apply Qmult_le_0_compat; lra).
  assert (P2 : (0 <= (14 - inject_Z c) * cw)%Q)
    by (apply Qmult_le_0_compat; lra).
  assert (P3 : (0 <= inject_Z r * ch)%Q) by (apply Qmult_le_0_compat; lra).
  assert (P4 : (0 <= (inject_Z rows - (inject_Z r + 1)) * ch)%Q)
    by (apply Qmult_le_0_compat; lra).
  destruct cell as [ty row col]. cbn [OgRoute.row OgRoute.col] in Erow, Ecol.
  subst row col. unfold isDay in Hday. cbn [OgRoute.type] in Hday.
  unfold OgRoute.draw, dec.
  cbn [OgRoute.type OgRoute.row OgRoute.col Sizing.dotSize
       Sizing.availableWidth Sizing.availableHeight of_int nmul].
  rewrite !ndiv_2. cbn [nmul nadd nsub nneg].
  destruct ty; try discriminate Hday; eexists; (split; [reflexivity |]);
    cbn [OgRoute.left OgRoute.top OgRoute.size nadd fin_lt];
    repeat match goal with |- _ /\ _ => split end; lra.
Qed.

Lemma icons_inside_available_area_witness :
  let g := Sizing.resolve (Fin 390) (Fin 844) (Fin (inject_Z 27)) in
  let cw := Sizing.cellWidth g in
  let ch := Sizing.cellHeight g (Fin (inject_Z 27)) in
  exists svg,
    OgRoute.draw (Sizing.dotSize g) cw ch
                 (OgRoute.mkDot OgRoute.today (Int 26) (Int 14)) = Some svg /\
    fin_lt (OgRoute.left svg + OgRoute.size svg)%js (Sizing.availableWidth g).
Proof.
  destruct (icons_inside_available_area 390 844 27 26 14
              (OgRoute.mkDot OgRoute.today (Int 26) (Int 14)))
    as (svg & Hs & _ & Hr & _);
    [reflexivity | reflexivity | lia | lia | lia | reflexivity | reflexivity
     | reflexivity |].
  exists svg. split; [exact Hs | exact Hr].
Defined.



(** X18. A width that is [NaN] (what [parseInt] gives for a width it cannot
    read) spoils the whole geometry, the vertical values too: only
    [cardHeight] is still a number, because the padding takes the minimum of
    both card sides. *)
Theorem NaN_width_spoils_geometry (H : Q) (rows : num) :
  let g := Sizing.resolve NaN (Fin H) rows in
  Sizing.cardHeight g = Fin (H * (48 # 100)) /\
  Sizing.cardWidth g = NaN /\ Sizing.padding g = NaN /\
  Sizing.availableWidth g = NaN /\ Sizing.availableHeight g = NaN /\
  Sizing.uniformGap g = NaN /\ Sizing.dotSize g = NaN /\
  Sizing.cellWidth g = NaN /\ Sizing.cellHeight g rows = NaN.
Proof. repeat split. Qed.



(** X20. The component does not reject an invalid [now] either: it renders
    the card, sized from the canvas, with an empty grid, a [NaN] gap and dot
    size and a [NaN] label. *)
Theorem component_with_invalid_date (W H : Q) :
  let v := DailyDots.render Invalid (Fin W) (Fin H) in
  DailyDots.grid v = [] /\
  DailyDots.caption v = mkLabel INaN NaN /\
  Sizing.uniformGap (DailyDots.sizing v) = NaN /\
  Sizing.dotSize (DailyDots.sizing v) = NaN /\
  Sizing.cardWidth (DailyDots.sizing v) =~ Fin (SpecGeometry.cardW W) /\
  Sizing.cardHeight (DailyDots.sizing v) =~ Fin (SpecGeometry.cardH H) /\
  Sizing.padding (DailyDots.sizing v) =~ Fin (SpecGeometry.padding W H).
Proof.
  intro v. subst v. unfold DailyDots.render. cbv zeta.
  destruct temporal_Invalid as (-> & -> & -> & ->).
  cbn [DailyDots.grid DailyDots.caption DailyDots.sizing of_int].
  destruct (resolve_NaN W H) as (H1 & H2 & H3 & _ & _ & _ & H7 & H8 & _).
  do 2 (split; [reflexivity |]).
  repeat match goal with |- _ /\ _ => split end; assumption.
Qed.

(** X21. For a valid date the percentage of the label, before rounding, is a
    finite number in [0, 100): it is 0 throughout 1 January and never reaches
    100. *)
Theorem percentage_bounds (t : LocalTime) :
  wf t ->
  exists p,
    percentage (label (Temporal.totalDays (At t))
                      (Temporal.daysPassed (At t))) = Fin p /\
    (0 <= p)%Q /\ (p < 100)%Q /\
    ((p == 0)%Q <-> month t = 0 /\ date t = 1).
Proof.
  intro Hwf.
  rewrite totalDays_At, daysPassed_At by exact Hwf.
  destruct (dayOfYear_bounds t Hwf) as [He He0].
  set (e := daysBeforeMonth (year t) (month t) + (date t - 1)) in *.
  set (n := if isLeapYear (year t) then 366 else 365) in *.
  assert (Hn : 365 <= n) by (subst n; destruct (isLeapYear (year t)); lia).
  assert (Hn0 : ~ (inject_Z n == 0)%Q) by (apply rows_nonzero; lia).
  assert (Qn : (0 < inject_Z n)%Q) by (unfold Qlt; cbn; lia).
  assert (Qe : (0 <= inject_Z e)%Q) by (unfold Qle; cbn; lia).
  assert (Qen : (inject_Z e < inject_Z n)%Q) by (unfold Qlt; cbn; lia).
  cbn [label percentage of_int]. rewrite ndiv_Fin by exact Hn0.
  cbn [nmul]. eexists. split; [reflexivity |].
  assert (Hx0 : (0 <= inject_Z e / inject_Z n)%Q)
    by (apply Qle_shift_div_l; lra).
  assert (Hx1 : (inject_Z e / inject_Z n < 1)%Q)
    by (apply Qlt_shift_div_r; lra).
  assert (Hmul : (inject_Z e / inject_Z n * inject_Z n == inject_Z e)%Q)
    by (field; exact Hn0).
  split; [lra |]. split; [lra |].
  rewrite <- He0. split.
  - intro Hp.
    assert (Hz : (inject_Z e / inject_Z n == 0)%Q) by lra.
    rewrite Hz in Hmul. apply inject_Z_injective.
    rewrite <- Hmul. ring.
  - intro E0. rewrite E0. unfold Qdiv. ring.
Qed.

Lemma percentage_bounds_witness :
  exists p,
    percentage (label (Temporal.totalDays dec31_2025)
                      (Temporal.daysPassed dec31_2025)) = Fin p /\
    (0 <= p)%Q /\ (p < 100)%Q /\
    ((p == 0)%Q <-> 11 = 0 /\ 31 = 1).
Proof.
  apply (percentage_bounds (mkTime 2025 11 31 23 59 59 0)).
  unfold wf; cbn; lia.
Defined.
